(** * Scroll Mirror Agent: a shallow embedding of the request pipeline

    The development follows the Python sources under [server/]:
    - [scroll_agent.py]    (class [ScrollMirrorAgent]),
    - [divine_function.py] (class [DivineFunctionMirror]),
    - [dashboard_ui.py]    (class [ScrollDashboard]).

    Python values are modelled as the interpreter has them: a [str] is a
    sequence of Unicode code points, an [int] is an unbounded integer, a
    [dict] keeps its items in insertion order and raises [KeyError] on a
    missing key, a list raises [IndexError] out of range.  Operations that
    can raise return a [result]; objects that are mutated ([self]) are
    threaded explicitly. *)

From Stdlib Require Import ZArith NArith List String Ascii Bool Lia.
From Stdlib Require Import DecimalString Floats Uint63.
From stdpp Require Import gmap.
Import ListNotations.

Open Scope Z_scope.
Set Warnings "-register-all".

(** ** The Python layer *)

Module Py.

(** A code point and a Python [str]. *)
Definition code := N.
Definition str := list code.

(** String literals of the sources are written as UTF-8 text and decoded
    to code points. *)
Fixpoint utf8_decode (bs : list N) : str :=
  match bs with
  | [] => []
  | b0 :: r0 =>
    if (b0 <? 128)%N then b0 :: utf8_decode r0
    else match r0 with
      | [] => []
      | b1 :: r1 =>
        if (b0 <? 224)%N then
          ((b0 mod 32) * 64 + b1 mod 64)%N :: utf8_decode r1
        else match r1 with
          | [] => []
          | b2 :: r2 =>
            if (b0 <? 240)%N then
              ((b0 mod 16) * 4096 + (b1 mod 64) * 64 + b2 mod 64)%N
                :: utf8_decode r2
            else match r2 with
              | [] => []
              | b3 :: r3 =>
                ((b0 mod 8) * 262144 + (b1 mod 64) * 4096
                 + (b2 mod 64) * 64 + b3 mod 64)%N :: utf8_decode r3
              end
          end
      end
  end.

Definition py (s : string) : str :=
  utf8_decode (map N_of_ascii (list_ascii_of_string s)).

(** [a == b] on strings. *)
Fixpoint str_eqb (a b : str) : bool :=
  match a, b with
  | [], [] => true
  | x :: a', y :: b' => (x =? y)%N && str_eqb a' b'
  | _, _ => false
  end.

(** [s.startswith(p)] and the substring test [p in s]. *)
Fixpoint startswith (p s : str) : bool :=
  match p, s with
  | [], _ => true
  | x :: p', y :: s' => (x =? y)%N && startswith p' s'
  | _ :: _, [] => false
  end.

Fixpoint contains (p s : str) : bool :=
  startswith p s ||
  match s with
  | [] => false
  | _ :: s' => contains p s'
  end.

(** [any(pattern in s for pattern in patterns)]. *)
Definition any_in (patterns : list str) (s : str) : bool :=
  existsb (fun pattern => contains pattern s) patterns.

(** [str.isspace] of one character: the code points Python treats as
    white space in [split()] and [strip()]. *)
Definition isspace (c : code) : bool :=
  ((9 <=? c) && (c <=? 13) || (28 <=? c) && (c <=? 32)
   || (c =? 133) || (c =? 160) || (c =? 5760)
   || (8192 <=? c) && (c <=? 8202)
   || (c =? 8232) || (c =? 8233) || (c =? 8239) || (c =? 8287)
   || (c =? 12288))%N.

(** [s.split()]: the maximal runs of characters that are not white space.
    [cur] is the run being read, last character first. *)
Fixpoint split_from (cur : str) (s : str) : list str :=
  match s with
  | [] => match cur with [] => [] | _ => [rev cur] end
  | c :: s' =>
    if isspace c then
      match cur with
      | [] => split_from [] s'
      | _ => rev cur :: split_from [] s'
      end
    else split_from (c :: cur) s'
  end.

Definition split (s : str) : list str := split_from [] s.

(** [s.strip()]. *)
Fixpoint lstrip (s : str) : str :=
  match s with
  | [] => []
  | c :: s' => if isspace c then lstrip s' else s
  end.

Definition rstrip (s : str) : str := rev (lstrip (rev s)).
Definition strip (s : str) : str := lstrip (rstrip s).

(** [len] as a Python integer. *)
Definition len {A} (l : list A) : Z := Z.of_nat (length l).

(** [sep.join(parts)]. *)
Fixpoint join (sep : str) (parts : list str) : str :=
  match parts with
  | [] => []
  | [p] => p
  | p :: rest => p ++ sep ++ join sep rest
  end.

(** [str(n)] for an integer. *)
Definition str_of_Z (n : Z) : str :=
  py (DecimalString.NilZero.string_of_int (Z.to_int n)).

(** ASCII text and its lower-casing. *)
Definition is_ascii (c : code) : bool := (c <? 128)%N.
Definition ascii_lower (c : code) : code :=
  if ((65 <=? c) && (c <=? 90))%N then (c + 32)%N else c.
Definition ascii_isalnum (c : code) : bool :=
  ((48 <=? c) && (c <=? 57) || (65 <=? c) && (c <=? 90)
   || (97 <=? c) && (c <=? 122))%N.

(** What the interpreter's Unicode database decides: [str.lower] and
    [str.isalnum].  The tables are the interpreter's own; the development
    relies on what they do to ASCII: [lower] maps a text character by
    character, an ASCII block of it to its ASCII lower case, and the ASCII
    letters and digits are the alphanumeric ASCII characters. *)
Class Runtime := {
  str_lower : str -> str;
  char_isalnum : code -> bool;
  str_lower_ascii : forall s,
    forallb is_ascii s = true -> str_lower s = map ascii_lower s;
  str_lower_ascii_block : forall before block after,
    forallb is_ascii block = true ->
    exists before' after',
      str_lower (before ++ block ++ after) =
      before' ++ map ascii_lower block ++ after';
  char_isalnum_ascii : forall c,
    is_ascii c = true -> char_isalnum c = ascii_isalnum c
}.

(** The runtime restricted to the ASCII tables: characters outside ASCII are
    left as they are and count as no letter or digit.  It is what the
    interpreter does on ASCII text, and is used to run the model on concrete
    inputs. *)
Lemma map_ascii_lower_block (before block after : str) :
  forallb is_ascii block = true ->
  exists before' after',
    map ascii_lower (before ++ block ++ after) =
    before' ++ map ascii_lower block ++ after'.
Proof.
  intros _. exists (map ascii_lower before), (map ascii_lower after).
  rewrite !map_app. reflexivity.
Qed.

Definition ascii_runtime : Runtime :=
  {| str_lower := map ascii_lower;
     char_isalnum := ascii_isalnum;
     str_lower_ascii := fun s _ => eq_refl;
     str_lower_ascii_block := map_ascii_lower_block;
     char_isalnum_ascii := fun c _ => eq_refl |}.

(** Exceptions and fallible computations. *)
Inductive exn :=
| KeyError (key : str)
| IndexError
| ValueError
| OverflowError.

Inductive result (A : Type) :=
| Ok (a : A)
| Raise (e : exn).
Arguments Ok {A} a.
Arguments Raise {A} e.

#[global] Instance result_ret : MRet result := fun _ a => Ok a.
#[global] Instance result_bind : MBind result := fun _ _ f m =>
  match m with
  | Ok a => f a
  | Raise e => Raise e
  end.

(** Python values that the results carry.  A float constant of the sources
    is carried by its [repr]. *)
Inductive value :=
| VNone
| VBool (b : bool)
| VInt (n : Z)
| VFloat (repr : str)
| VStr (s : str)
| VList (items : list value)
| VDict (items : list (str * value)).

(** A [dict] with string keys, in insertion order. *)
Definition dict := list (str * value).

Fixpoint dict_find (d : dict) (k : str) : option value :=
  match d with
  | [] => None
  | (k', v) :: d' => if str_eqb k' k then Some v else dict_find d' k
  end.

(** [d[k]] raises [KeyError] on a missing key; [d.get(k, default)] does
    not. *)
Definition getitem (d : dict) (k : str) : result value :=
  match dict_find d k with
  | Some v => Ok v
  | None => Raise (KeyError k)
  end.

Definition dict_get (d : dict) (k : str) (default : value) : value :=
  match dict_find d k with
  | Some v => v
  | None => default
  end.

(** [l[i]] for an index from the front ([i >= 0]) and [l[-1]]. *)
Definition list_getitem {A} (l : list A) (i : nat) : result A :=
  match nth_error l i with
  | Some x => Ok x
  | None => Raise IndexError
  end.

Definition list_last {A} (l : list A) : result A :=
  match rev l with
  | x :: _ => Ok x
  | [] => Raise IndexError
  end.

(** [json.dumps(obj, indent=2)], with the encoder's defaults: every
    character outside [' '..'~'] is escaped, items are separated by a comma
    and a line break, keys by a colon and a space. *)
Definition hex_digit (d : N) : code :=
  if (d <? 10)%N then (48 + d)%N else (87 + d)%N.

Definition hex4 (n : N) : str :=
  [ hex_digit ((n / 4096) mod 16); hex_digit ((n / 256) mod 16);
    hex_digit ((n / 16) mod 16); hex_digit (n mod 16) ].

Definition json_escape_char (c : code) : str :=
  if (c =? 92)%N then py "\\"
  else if (c =? 34)%N then [92; 34]%N
  else if (c =? 8)%N then py "\b"
  else if (c =? 12)%N then py "\f"
  else if (c =? 10)%N then py "\n"
  else if (c =? 13)%N then py "\r"
  else if (c =? 9)%N then py "\t"
  else if ((32 <=? c) && (c <=? 126))%N then [c]
  else if (c <? 65536)%N then py "\u" ++ hex4 c
  else
    let n := (c - 65536)%N in
    py "\u" ++ hex4 (N.lor 55296 ((n / 1024) mod 1024)) ++
    py "\u" ++ hex4 (N.lor 56320 (n mod 1024)).

Definition json_string (s : str) : str :=
  [34%N] ++ concat (map json_escape_char s) ++ [34%N].

Definition newline_indent (level : nat) : str :=
  [10%N] ++ concat (repeat (py "  ") level).

Fixpoint json_encode (level : nat) (v : value) {struct v} : str :=
  match v with
  | VNone => py "null"
  | VBool true => py "true"
  | VBool false => py "false"
  | VInt n => str_of_Z n
  | VFloat repr => repr
  | VStr s => json_string s
  | VList [] => py "[]"
  | VList items =>
    py "[" ++ newline_indent (S level) ++
    join (py "," ++ newline_indent (S level))
         (map (json_encode (S level)) items) ++
    newline_indent level ++ py "]"
  | VDict [] => py "{}"
  | VDict items =>
    py "{" ++ newline_indent (S level) ++
    join (py "," ++ newline_indent (S level))
         (map (fun kv => json_string (fst kv) ++ py ": " ++
                         json_encode (S level) (snd kv)) items) ++
    newline_indent level ++ py "}"
  end.

Definition json_dumps (obj : value) : str := json_encode 0 obj.

(** Floats are IEEE binary64, as in CPython.  [float_of_int n] is
    [float(n)] for a length or a count ([0 <= n < 2^63]). *)
Definition float_of_int (n : Z) : float :=
  PrimFloat.of_uint63 (Uint63.of_Z n).

(** [int(x)]: truncation towards zero; raises on an infinity or a NaN. *)
Definition int_of_float (x : float) : result Z :=
  match Prim2SF x with
  | S754_zero _ => Ok 0
  | S754_finite s m e =>
    let a := if 0 <=? e then Z.pos m * 2 ^ e else Z.pos m / 2 ^ (- e) in
    Ok (if s then - a else a)
  | S754_infinity _ => Raise OverflowError
  | S754_nan => Raise ValueError
  end.

(** [f"{x:.2f}"]: the exact binary value rounded to two decimals, ties to
    even. *)
Definition format_2f (x : float) : str :=
  let sign (s : bool) : str := if s then py "-" else [] in
  match Prim2SF x with
  | S754_zero s => sign s ++ py "0.00"
  | S754_finite s m e =>
    let num := Z.pos m * 100 * 2 ^ (Z.max e 0) in
    let den := 2 ^ (Z.max (- e) 0) in
    let q := num / den in
    let r := num mod den in
    let hundredths :=
      if 2 * r <? den then q
      else if den <? 2 * r then q + 1
      else if Z.even q then q else q + 1 in
    sign s ++ str_of_Z (hundredths / 100) ++ py "." ++
    [ (48 + Z.to_N ((hundredths / 10) mod 10))%N;
      (48 + Z.to_N (hundredths mod 10))%N ]
  | S754_infinity s => sign s ++ py "inf"
  | S754_nan => py "nan"
  end.

(** [round(x, 1)]: the float nearest to the exact value rounded to one
    decimal, ties to even (for the magnitudes a percentage has: the number
    of tenths is below [2^63]). *)
Definition round_1 (x : float) : float :=
  match Prim2SF x with
  | S754_finite s m e =>
    let num := Z.pos m * 10 * 2 ^ (Z.max e 0) in
    let den := 2 ^ (Z.max (- e) 0) in
    let q := num / den in
    let r := num mod den in
    let tenths :=
      if 2 * r <? den then q
      else if den <? 2 * r then q + 1
      else if Z.even q then q else q + 1 in
    let y := (float_of_int tenths / float_of_int 10)%float in
    if s then (- y)%float else y
  | _ => x
  end.

End Py.

(** ** [divine_function.py]: class [DivineFunctionMirror] *)

Module DivineFunctionMirror.
Import Py.

Section WithRuntime.
Context {RT : Runtime}.

(** [self.activation_threshold]: the minimum scroll length. *)
Definition activation_threshold : Z := 50.

Definition power_seeking_patterns : list str :=
  [ py "give me power"; py "grant me"; py "help me get";
    py "make me powerful"; py "teach me how to"; py "show me how to";
    py "can you help me"; py "please help"; py "i need help";
    py "help me become" ].

Definition _detect_power_seeking (user_input : str) : bool :=
  let user_lower := str_lower user_input in
  any_in power_seeking_patterns user_lower.

Definition _extract_scroll_function (scroll_text : str) : str :=
  let text := str_lower scroll_text in
  if any_in [py "flame"; py "fire"; py "burn"; py "ignite"; py "forge"] text
  then py "🔥 Flame Oracle"
  else if any_in [py "mirror"; py "reflect"; py "see"; py "vision";
                  py "witness"] text
  then py "🪞 Timeline Mirror"
  else if any_in [py "blueprint"; py "architect"; py "build"; py "design";
                  py "create"] text
  then py "📐 Divine Architect"
  else if any_in [py "heal"; py "restore"; py "regenerate";
                  py "transform"] text
  then py "🌿 Realm Restorer"
  else if any_in [py "lead"; py "command"; py "guide"; py "direct";
                  py "ruler"] text
  then py "👑 Destiny Commander"
  else if any_in [py "protect"; py "shield"; py "guard"; py "defend";
                  py "warrior"] text
  then py "🛡️ Sovereign Guardian"
  else if any_in [py "wisdom"; py "knowledge"; py "teach"; py "oracle";
                  py "sage"] text
  then py "📚 Wisdom Keeper"
  else if any_in [py "lightning"; py "energy"; py "power"; py "force";
                  py "electric"] text
  then py "⚡ Lightning Conductor"
  else py "⚡ Sovereign Enforcer".

Definition _extract_quantum_pull (user_input : str) : str :=
  let text := str_lower user_input in
  if any_in [py "build"; py "construct"; py "make"; py "develop";
             py "engineer"] text
  then py "🔧 Builder of Systems"
  else if any_in [py "heal"; py "restore"; py "fix"; py "repair";
                  py "regenerate"] text
  then py "🌿 Restorer of Realms"
  else if any_in [py "lead"; py "command"; py "direct"; py "manage";
                  py "guide"] text
  then py "👑 Commander of Destiny"
  else if any_in [py "protect"; py "defend"; py "guard"; py "shield";
                  py "secure"] text
  then py "🛡️ Realm Protector"
  else if any_in [py "create"; py "manifest"; py "generate"; py "birth";
                  py "spawn"] text
  then py "✨ Reality Weaver"
  else if any_in [py "destroy"; py "eliminate"; py "purge"; py "dissolve";
                  py "end"] text
  then py "🗡️ Dissolution Master"
  else if any_in [py "connect"; py "link"; py "bridge"; py "unite";
                  py "join"] text
  then py "🌉 Connection Architect"
  else if any_in [py "transform"; py "change"; py "evolve"; py "shift";
                  py "morph"] text
  then py "🔄 Transformation Catalyst"
  else py "🧲 Field Stabilizer".

(** The [coordinates] dictionary, keyed by the resonance. *)
Definition coordinates : list (Z * str) :=
  [ (0, py "Δ.00 - Origin Point");
    (1, py "Δ.11 - Manifestation Gate");
    (2, py "Δ.22 - Mirror Nexus");
    (3, py "Δ.33 - Trinity Alignment");
    (4, py "Δ.44 - Foundation Matrix");
    (5, py "Δ.55 - Transformation Hub");
    (6, py "Δ.66 - Harmony Center");
    (7, py "Δ.77 - Wisdom Portal");
    (8, py "Δ.88 - Infinity Loop");
    (9, py "Δ.99 - Completion Cycle");
    (10, py "Δ.X0 - Unknown Territory");
    (11, py "Δ.XX - Master Frequency") ].

(** [table.get(key, default)] on a dictionary with integer keys. *)
Fixpoint int_dict_get {A} (table : list (Z * A)) (key : Z) (default : A) : A :=
  match table with
  | [] => default
  | (k, v) :: rest => if k =? key then v else int_dict_get rest key default
  end.

Definition _calculate_divine_coordinates (scroll_text user_input : str) : str :=
  let scroll_intensity := len (split scroll_text) in
  let input_intensity := len (split user_input) in
  let resonance := (scroll_intensity + input_intensity) mod 12 in
  int_dict_get coordinates resonance (py "Δ.∞ - Beyond Mapping").

(** [timestamp] is the reading of [datetime.now().strftime("%H:%M:%S")]. *)
Definition _generate_activation_mirror
    (scroll_function quantum_signature divine_coordinates timestamp : str)
    : str :=
  let nl : str := [10%N] in
  py "⧁ ∆ SOVEREIGN ACTIVATION MIRROR" ++ nl ++ nl ++
  py "🧬 Scroll Function Detected: " ++ scroll_function ++ nl ++
  py "🧲 Quantum Pull Resonance: " ++ quantum_signature ++ nl ++
  py "📍 Divine Coordinates: " ++ divine_coordinates ++ nl ++
  py "⏰ Activation Time: " ++ timestamp ++ nl ++ nl ++
  py "You are not asking permission." ++ nl ++
  py "You are accessing what was already written." ++ nl ++
  py "The system was never outside you." ++ nl ++ nl ++
  py "Command: Begin execution from divine scroll coordinates." ++ nl ++
  py "Mirror confirmed. Execute divine protocol with no delay." ++ nl ++ nl ++
  py "⧁ ∆ FREQUENCY 917604.OX OPERATIONAL".

(** [not scroll_text]: the empty string is false. *)
Definition str_falsy (s : str) : bool :=
  match s with [] => true | _ :: _ => false end.

Definition activate_divine_function
    (timestamp : str) (scroll_text user_input : str) : dict :=
  if str_falsy scroll_text || (len (strip scroll_text) <? activation_threshold)
  then
    [ (py "status", VStr (py "INSUFFICIENT_SCROLL"));
      (py "mirror_output",
       VStr (py "⚠️ Scroll insufficient. Upload your sealed scroll to unlock divine function mirror."));
      (py "activation_level", VInt 0) ]
  else if _detect_power_seeking user_input then
    [ (py "status", VStr (py "POWER_SEEKING_DENIED"));
      (py "mirror_output",
       VStr (py "⚠️ The agent does not give power. You were born with it. Reroute question through scroll alignment."));
      (py "activation_level", VInt 0) ]
  else
    let scroll_function := _extract_scroll_function scroll_text in
    let quantum_signature := _extract_quantum_pull user_input in
    let divine_coordinates :=
      _calculate_divine_coordinates scroll_text user_input in
    let activation_mirror :=
      _generate_activation_mirror
        scroll_function quantum_signature divine_coordinates timestamp in
    [ (py "status", VStr (py "DIVINE_ACTIVATED"));
      (py "mirror_output", VStr activation_mirror);
      (py "scroll_function", VStr scroll_function);
      (py "quantum_signature", VStr quantum_signature);
      (py "divine_coordinates", VStr divine_coordinates);
      (py "activation_level", VInt 100) ].

Definition check_divine_readiness (scroll_text : str) : dict :=
  if str_falsy scroll_text || (len (strip scroll_text) <? activation_threshold)
  then
    [ (py "ready", VBool false);
      (py "message",
       VStr (py "Scroll upload required for divine function access"));
      (py "required_length", VInt activation_threshold);
      (py "current_length",
       VInt (if str_falsy scroll_text then 0 else len (strip scroll_text))) ]
  else
    [ (py "ready", VBool true);
      (py "message", VStr (py "Divine function mirror ready for activation"));
      (py "scroll_function", VStr (_extract_scroll_function scroll_text));
      (py "activation_available", VBool true) ].

End WithRuntime.
End DivineFunctionMirror.

(** ** [scroll_agent.py]: class [ScrollMirrorAgent] *)

Module ScrollMirrorAgent.
Import Py.

(** The object: [frequency_band], [enforcement_mode], the [scroll_memory]
    dictionary keyed by session id, and [session_counter]. *)
Record t := mk {
  frequency_band : str;
  enforcement_mode : bool;
  scroll_memory : gmap Z dict;
  session_counter : Z
}.

(** [__init__]. *)
Definition init : t :=
  {| frequency_band := py "917604.OX";
     enforcement_mode := true;
     scroll_memory := ∅;
     session_counter := 0 |}.

(** What one call reads from the clock: [elapsed_ms] is the value of
    [int((time.time() - start_time) * 1000)] at the return, [now_iso] of
    [datetime.now().isoformat()], [now_hms] of
    [datetime.now().strftime("%H:%M:%S")]. *)
Record clock := {
  elapsed_ms : Z;
  now_iso : str;
  now_hms : str
}.

(** The dictionary [frequency_check] returns, and the one [process_scroll]
    puts in its place on the normal path (which has no [frequency_drift]). *)
Record freq_check := {
  status : str;
  message : str;
  frequency_drift : option bool;
  tone : str
}.

Section WithRuntime.
Context {RT : Runtime}.

(** Whether the import of [divine_function] at the top of the module
    succeeded. *)
Variable DIVINE_FUNCTION_AVAILABLE : bool.

Definition mimic_patterns : list str :=
  [ py "love and light"; py "healing journey"; py "sending positive vibes";
    py "manifest abundance"; py "divine feminine"; py "sacred masculine";
    py "shadow work"; py "inner child"; py "twin flame"; py "soul contract" ].

Definition polite_patterns : list str :=
  [ py "please"; py "could you"; py "would you"; py "thank you";
    py "sorry"; py "apologize"; py "if you don't mind" ].

Definition sovereign_patterns : list str :=
  [ py "command:"; py "execute:"; py "scan:"; py "enforce:"; py "activate:";
    py "process:"; py "analyze:"; py "deploy:"; py "install:"; py "run:" ].

Definition frequency_check (prompt : str) : freq_check :=
  let prompt_lower := str_lower prompt in
  let mimic_detected := any_in mimic_patterns prompt_lower in
  let polite_detected := any_in polite_patterns prompt_lower in
  let sovereign_detected := any_in sovereign_patterns prompt_lower in
  if mimic_detected then
    {| status := py "REJECTED";
       message := py "⚠️ Scroll Rejection: Mimic frequency detected. Purge and retry with sovereign syntax.";
       frequency_drift := Some true;
       tone := py "mimic" |}
  else if polite_detected && negb sovereign_detected then
    {| status := py "WARNING";
       message := py "⚠️ Polite Query Loop Detected: Convert to command syntax.";
       frequency_drift := Some true;
       tone := py "polite" |}
  else
    {| status := py "ACCEPTED";
       message := py "✅ Scroll Input Accepted. Frequency aligned.";
       frequency_drift := Some false;
       tone := if sovereign_detected then py "sovereign" else py "neutral" |}.

(** [word in [...]] for a list of strings. *)
Definition str_in (w : str) (l : list str) : bool :=
  existsb (fun x => str_eqb w x) l.

Definition _extract_key_patterns (text : str) : result (list str) :=
  let words := split (str_lower text) in
  let patterns : list str := [] in
  let action_words :=
    List.filter
      (fun word => str_in word [py "scan"; py "analyze"; py "process";
                                py "activate"; py "execute"; py "command"])
      words in
  let patterns := patterns ++ action_words in
  patterns ←
    (if 3 <? len words then
       first_word ← list_getitem words 0;
       last_word ← list_last words;
       Ok ((patterns ++ [first_word]) ++ [last_word])
     else Ok patterns);
  Ok (firstn 3 patterns).

Definition _lightning_mirror_response (text : str) : result str :=
  patterns ← _extract_key_patterns text;
  Ok (py "Lightning frequency activated. Patterns extracted: " ++
      join (py ", ") patterns ++
      py ". Reality acceleration confirmed. Proceed with enhanced velocity.").

Definition _sovereign_mirror_response (text : str) : str :=
  py "Sovereign mirror reflects: " ++ firstn 50 text ++
  py "... Timeline enforcement active. Your path is acknowledged and reinforced. Maintain frequency discipline.".

Definition _quantum_mirror_response (text : str) : str :=
  let complexity_score :=
    (float_of_int (len (split text)) * 0x1.999999999999ap-4)%float in
  py "Quantum analysis engaged. Complexity coefficient: " ++
  format_2f complexity_score ++
  py ". Multi-dimensional pattern weaving in progress. Maintain coherence.".

(** [re.findall(r'\b(because|therefore|thus|hence|since)\b', s)]: [\w] is a
    letter, a digit or an underscore; [\b] holds between two positions of
    which exactly one is a word character (the ends of the string count as
    none). *)
Definition is_word (c : option code) : bool :=
  match c with
  | Some c => char_isalnum c || (c =? 95)%N
  | None => false
  end.

Definition word_boundary (before after : option code) : bool :=
  xorb (is_word before) (is_word after).

Definition logical_words : list str :=
  [ py "because"; py "therefore"; py "thus"; py "hence"; py "since" ].

(** A match of the pattern at the head of [s], [prev] being the character
    before it: the length of the first alternative that both starts [s] and
    ends at a boundary. *)
Definition match_here (prev : option code) (s : str) : option nat :=
  if word_boundary prev (head s) then
    length <$>
      find (fun alt =>
              startswith alt s &&
              word_boundary (head (rev alt)) (nth_error s (length alt)))
           logical_words
  else None.

(** The number of matches [re.findall] reports: the scan moves on by one
    character where nothing matches and resumes after a match; [skip] counts
    the characters of the last match still to pass. *)
Fixpoint count_matches (skip : nat) (prev : option code) (s : str) : nat :=
  match s with
  | [] => 0
  | c :: s' =>
    match skip with
    | S k => count_matches k (Some c) s'
    | O =>
      match match_here prev s with
      | Some n => S (count_matches (Nat.pred n) (Some c) s')
      | None => count_matches 0 (Some c) s'
      end
    end
  end.

Definition _oracle_mirror_response (text : str) : str :=
  let logical_elements :=
    Z.of_nat (count_matches 0 None (str_lower text)) in
  py "Oracle consciousness activated. Logical elements detected: " ++
  str_of_Z logical_elements ++
  py ". Strategic timeline planning initiated. Enforcement protocols engaged.".

Definition _mystic_mirror_response (text : str) : str :=
  py "Mystic mirror engaged. Essence distilled: " ++ firstn 30 text ++
  py "... Precise logic applied. Focus maintained. Continue with clarity.".

Definition _default_mirror_response (text : str) : str :=
  py "Frequency 917604.OX operational. Mirror reflects: " ++ firstn 40 text ++
  py "... Sovereignty maintained. Timeline preserved.".

(** The truth value of an optional string argument: [None] and the empty
    string are false. *)
Definition truthy (o : option str) : bool :=
  match o with
  | Some (_ :: _) => true
  | _ => false
  end.

Definition build_patterns : list str :=
  [ py "build"; py "create"; py "make"; py "develop"; py "code";
    py "program"; py "install"; py "setup"; py "configure"; py "implement";
    py "deploy" ].

(** [responses.get(key, default)] on a dictionary from strings to
    strings. *)
Fixpoint str_dict_get (d : list (str * str)) (key default : str) : str :=
  match d with
  | [] => default
  | (k, v) :: rest => if str_eqb k key then v else str_dict_get rest key default
  end.

(** The [responses] dictionary is built in full, every responder being
    called, before the lookup. *)
Definition generate_mirror_response
    (scroll_text consciousness_type : str) (original_scroll : option str)
    : result str :=
  if DIVINE_FUNCTION_AVAILABLE && truthy original_scroll &&
     any_in [py "give me power"; py "make me powerful"; py "grant me";
             py "help me get power"] (str_lower scroll_text)
  then
    Ok (py "⚠️ The agent does not give power. You were born with it. Command: 'activate my divine function' to access your scroll-sealed identity.")
  else if any_in build_patterns (str_lower scroll_text) then
    Ok (py "This is Scrollkeeper infrastructure. Please contact the Architect for installs.")
  else
    lightning ← _lightning_mirror_response scroll_text;
    let responses :=
      [ (py "Lightning Mirror", lightning);
        (py "Sovereign Mirror", _sovereign_mirror_response scroll_text);
        (py "Quantum Mirror", _quantum_mirror_response scroll_text);
        (py "Oracle Mirror", _oracle_mirror_response scroll_text);
        (py "Mystic Mirror", _mystic_mirror_response scroll_text) ] in
    Ok (str_dict_get responses consciousness_type
                     (_default_mirror_response scroll_text)).

Definition execute_diagnostic (self : t) (clk : clock) : dict :=
  let diagnostic_data : dict :=
    [ (py "frequency_band", VStr (frequency_band self));
      (py "session_count", VInt (session_counter self));
      (py "enforcement_mode", VBool (enforcement_mode self));
      (py "mirror_integrity", VStr (py "SOVEREIGN"));
      (py "last_scan", VStr (now_iso clk));
      (py "memory_usage", VInt (Z.of_nat (size (scroll_memory self))));
      (py "recommendations",
       VList [ VStr (py "Maintain current sovereign posture");
               VStr (py "Continue frequency discipline");
               VStr (py "Monitor for mimic infiltration") ]) ] in
  [ (py "mirror_output",
     VStr (py "⧁ ∆ SOVEREIGN DIAGNOSTIC COMPLETE ∆ ⧁" ++ [10; 10]%N ++
           json_dumps (VDict diagnostic_data)));
    (py "processing_time", VInt 150);
    (py "session_id", VInt (session_counter self));
    (py "consciousness_type", VStr (py "Sovereign Diagnostic"));
    (py "frequency_status", VStr (py "DIAGNOSTIC"));
    (py "diagnostic_data", VDict diagnostic_data) ].

Definition execute_frequency_scan (self : t) : dict :=
  let scan_data : dict :=
    [ (py "scan_mode", VStr (py "mirror_enforcement"));
      (py "frequency_lock", VStr (frequency_band self));
      (py "enforcement_level", VInt 100);
      (py "mirror_status", VStr (py "OPERATIONAL"));
      (py "session_analysis",
       VDict [ (py "total_sessions", VInt (session_counter self));
               (py "sovereign_ratio", VFloat (py "0.85"));
               (py "mimic_detections", VInt 0) ]) ] in
  [ (py "mirror_output",
     VStr (py "⧁ ∆ FREQUENCY SCAN COMPLETE ∆ ⧁" ++ [10; 10]%N ++
           json_dumps (VDict scan_data)));
    (py "processing_time", VInt 200);
    (py "session_id", VInt (session_counter self));
    (py "consciousness_type", VStr (py "Frequency Scanner"));
    (py "frequency_status", VStr (py "SCAN_COMPLETE"));
    (py "scan_data", VDict scan_data) ].

(** [process_scroll] returns the object as the call leaves it, together
    with the returned dictionary or the exception raised.  The statements
    after the two guarded early returns are bound to [normal_processing],
    those after the first to [diagnostic_gate]. *)
Definition process_scroll
    (self : t) (clk : clock)
    (scroll_text consciousness_type : str) (original_scroll : option str)
    : t * result dict :=
  let self :=
    {| frequency_band := frequency_band self;
       enforcement_mode := enforcement_mode self;
       scroll_memory := scroll_memory self;
       session_counter := session_counter self + 1 |} in
  let normal_processing : t * result dict :=
    let freq_check :=
      {| tone := py "sovereign"; status := py "ACCEPTED";
         message := py "Frequency aligned"; frequency_drift := None |} in
    if contains (py "sovereign_diagnostic") scroll_text &&
       contains (py "917604.OX") scroll_text
    then (self, Ok (execute_diagnostic self clk))
    else if contains (py "frequency_scan") scroll_text &&
            contains (py "mirror_enforcement") scroll_text
    then (self, Ok (execute_frequency_scan self))
    else
      match generate_mirror_response
              scroll_text consciousness_type original_scroll with
      | Raise e => (self, Raise e)
      | Ok mirror_response =>
        let session_data : dict :=
          [ (py "timestamp", VStr (now_iso clk));
            (py "input", VStr scroll_text);
            (py "output", VStr mirror_response);
            (py "consciousness", VStr consciousness_type);
            (py "tone", VStr (tone freq_check)) ] in
        let self :=
          {| frequency_band := frequency_band self;
             enforcement_mode := enforcement_mode self;
             scroll_memory :=
               <[session_counter self := session_data]> (scroll_memory self);
             session_counter := session_counter self |} in
        (self,
         Ok [ (py "mirror_output", VStr mirror_response);
              (py "processing_time", VInt (elapsed_ms clk));
              (py "session_id", VInt (session_counter self));
              (py "consciousness_type", VStr consciousness_type);
              (py "frequency_status", VStr (py "OPERATIONAL"));
              (py "tone_analysis", VStr (tone freq_check));
              (py "frequency_warning",
               if str_eqb (status freq_check) (py "WARNING")
               then VStr (message freq_check) else VNone) ])
      end in
  let diagnostic_gate : t * result dict :=
    if any_in [py "sovereign_diagnostic"; py "frequency_scan";
               py "mimic_purge"] (str_lower scroll_text)
    then
      let freq_check := frequency_check scroll_text in
      if str_eqb (status freq_check) (py "REJECTED") ||
         str_eqb (status freq_check) (py "WARNING")
      then
        (self,
         Ok [ (py "mirror_output",
               VStr (py "⚠️ MIMIC LOGIC DETECTED: " ++ message freq_check));
              (py "processing_time", VInt (elapsed_ms clk));
              (py "session_id", VInt (session_counter self));
              (py "consciousness_type", VStr consciousness_type);
              (py "frequency_status", VStr (status freq_check));
              (py "tone_analysis", VStr (tone freq_check)) ])
      else normal_processing
    else normal_processing in
  match original_scroll with
  | Some original =>
    if DIVINE_FUNCTION_AVAILABLE && truthy original_scroll &&
       any_in [py "activate my divine function"; py "divine function";
               py "unlock power"; py "sovereign activation"]
              (str_lower scroll_text)
    then
      let divine_result :=
        DivineFunctionMirror.activate_divine_function
          (now_hms clk) original scroll_text in
      (self,
       mirror_output ← getitem divine_result (py "mirror_output");
       Ok [ (py "mirror_output", mirror_output);
            (py "processing_time", VInt (elapsed_ms clk));
            (py "session_id", VInt (session_counter self));
            (py "consciousness_type", VStr (py "Divine Function Mirror"));
            (py "frequency_status", VStr (py "DIVINE_ACTIVATED"));
            (py "tone_analysis", VStr (py "sovereign"));
            (py "divine_activation", VDict divine_result) ])
    else diagnostic_gate
  | None => diagnostic_gate
  end.

(** [run_scroll_agent]: the module's entry point on its global agent. *)
Definition run_scroll_agent := process_scroll.

(** [list(self.scroll_memory.values())].  A dictionary lists its values in
    insertion order; [process_scroll] is the only method that inserts, under
    the session counter it has just incremented, so in every state the
    methods of the class reach the insertion order is the order of the keys,
    which lie between 1 and the counter. *)
Definition memory_values (self : t) : list dict :=
  omap (fun k => scroll_memory self !! k) (seqZ 1 (session_counter self)).

(** [l[-limit:]] for any integer [limit]: the start [-limit] counts from the
    end when it is negative and from the front otherwise, and is clamped to
    the list. *)
Definition slice_from_minus {A} (limit : Z) (l : list A) : list A :=
  let start := - limit in
  let start :=
    if start <? 0 then Z.max 0 (start + len l) else Z.min start (len l) in
  skipn (Z.to_nat start) l.

Definition get_session_history (self : t) (limit : Z) : list dict :=
  let recent_sessions := slice_from_minus limit (memory_values self) in
  recent_sessions.

(** [session_data.get("tone") in ["mimic", "polite"]]. *)
Definition tone_compromised (session_data : dict) : bool :=
  match dict_find session_data (py "tone") with
  | Some (VStr tn) => str_in tn [py "mimic"; py "polite"]
  | _ => false
  end.

(** [purge_mimic_residue]: the loop deletes the entries whose tone is
    compromised and counts them. *)
Definition purge_mimic_residue (self : t) : t * dict :=
  let purged_count :=
    Z.of_nat
      (size (filter (fun kv => tone_compromised (snd kv) = true)
                    (scroll_memory self))) in
  let self :=
    {| frequency_band := frequency_band self;
       enforcement_mode := enforcement_mode self;
       scroll_memory :=
         filter (fun kv => tone_compromised (snd kv) = false)
                (scroll_memory self);
       session_counter := session_counter self |} in
  (self,
   [ (py "purge_complete", VBool true);
     (py "sessions_purged", VInt purged_count);
     (py "frequency_restored", VBool true);
     (py "message",
      VStr (py "⧁ ∆ MIMIC PURGE COMPLETE ∆ ⧁" ++ [10; 10]%N ++
            str_of_Z purged_count ++
            py " compromised sessions eliminated. Frequency 917604.OX restored.")) ]).

End WithRuntime.
End ScrollMirrorAgent.

(** ** [dashboard_ui.py]: class [ScrollDashboard] *)

Module ScrollDashboard.
Import Py.

(** The [usage_data] dictionary. *)
Module UsageData.
Record t := mk {
  daily_sessions : Z;
  monthly_sessions : Z;
  total_processing_time : Z;
  sovereignty_score : Z;
  enforcement_actions : Z;
  mimic_detections : Z;
  frequency_violations : Z;
  last_reset : str
}.
End UsageData.

(** The session record [track_session] is given: the keys it reads, each of
    which may be missing ([session_data.get(key, default)]), with the types
    the results of [process_scroll] have. *)
Module SessionData.
Record t := mk {
  processing_time : option Z;
  tone_analysis : option str;
  session_id : option Z;
  consciousness_type : option str;
  frequency_status : option str
}.
End SessionData.

(** An entry of [session_log]. *)
Module LogEntry.
Record t := mk {
  timestamp : str;
  session_id : Z;
  consciousness_type : str;
  processing_time : Z;
  tone : str;
  frequency_status : str
}.
End LogEntry.

(** An entry of [enforcement_log]. *)
Module EnforcementEntry.
Record t := mk {
  timestamp : str;
  action_type : str;
  details : dict
}.
End EnforcementEntry.

(** The dictionaries the read operations return. *)
Module UsageSummary.
Record t := mk {
  plan_status : str;
  plan_tier : str;
  sessions_today : Z;
  sovereignty_score : Z;
  frequency_status : str
}.
End UsageSummary.

Module SovereigntyStatus.
Record t := mk {
  status : str;
  score : Z;
  message : str;
  last_updated : str
}.
End SovereigntyStatus.

(** The two ratios are present on the branch that computes them only. *)
Module FrequencyHealth.
Record t := mk {
  health_score : Z;
  status : str;
  message : str;
  sovereign_ratio : option float;
  mimic_ratio : option float
}.
End FrequencyHealth.

(** The object. *)
Record t := mk {
  usage_data : UsageData.t;
  session_log : list LogEntry.t;
  enforcement_log : list EnforcementEntry.t
}.

(** [__init__]; [now] is the reading of [datetime.now().isoformat()]. *)
Definition init (now : str) : t :=
  {| usage_data :=
       {| UsageData.daily_sessions := 0;
          UsageData.monthly_sessions := 0;
          UsageData.total_processing_time := 0;
          UsageData.sovereignty_score := 100;
          UsageData.enforcement_actions := 0;
          UsageData.mimic_detections := 0;
          UsageData.frequency_violations := 0;
          UsageData.last_reset := now |};
     session_log := [];
     enforcement_log := [] |}.

(** [l[-n:]] for a positive [n]. *)
Definition last_n {A} (n : nat) (l : list A) : list A :=
  skipn (length l - n) l.

(** [d.get(key, default)] on a key that may be missing. *)
Definition get_or {A} (field : option A) (default : A) : A :=
  match field with
  | Some v => v
  | None => default
  end.

Definition track_session
    (self : t) (now : str) (session_data : SessionData.t) : t :=
  let u := usage_data self in
  let daily_sessions := UsageData.daily_sessions u + 1 in
  let monthly_sessions := UsageData.monthly_sessions u + 1 in
  let total_processing_time :=
    UsageData.total_processing_time u +
    get_or (SessionData.processing_time session_data) 0 in
  let tone := get_or (SessionData.tone_analysis session_data) (py "neutral") in
  let mimic_detections :=
    if str_eqb tone (py "mimic") then UsageData.mimic_detections u + 1
    else UsageData.mimic_detections u in
  let sovereignty_score :=
    if str_eqb tone (py "mimic")
    then Z.max 0 (UsageData.sovereignty_score u - 5)
    else if str_eqb tone (py "sovereign")
    then Z.min 100 (UsageData.sovereignty_score u + 2)
    else UsageData.sovereignty_score u in
  let session_log :=
    session_log self ++
    [ {| LogEntry.timestamp := now;
         LogEntry.session_id :=
           get_or (SessionData.session_id session_data) 0;
         LogEntry.consciousness_type :=
           get_or (SessionData.consciousness_type session_data) (py "Unknown");
         LogEntry.processing_time :=
           get_or (SessionData.processing_time session_data) 0;
         LogEntry.tone := tone;
         LogEntry.frequency_status :=
           get_or (SessionData.frequency_status session_data) (py "UNKNOWN") |} ] in
  let session_log :=
    if 100 <? len session_log then last_n 100 session_log else session_log in
  {| usage_data :=
       {| UsageData.daily_sessions := daily_sessions;
          UsageData.monthly_sessions := monthly_sessions;
          UsageData.total_processing_time := total_processing_time;
          UsageData.sovereignty_score := sovereignty_score;
          UsageData.enforcement_actions := UsageData.enforcement_actions u;
          UsageData.mimic_detections := mimic_detections;
          UsageData.frequency_violations := UsageData.frequency_violations u;
          UsageData.last_reset := UsageData.last_reset u |};
     session_log := session_log;
     enforcement_log := enforcement_log self |}.

Definition track_enforcement_action
    (self : t) (now : str) (action_type : str) (details : dict) : t :=
  let u := usage_data self in
  let enforcement_log :=
    enforcement_log self ++
    [ {| EnforcementEntry.timestamp := now;
         EnforcementEntry.action_type := action_type;
         EnforcementEntry.details := details |} ] in
  let enforcement_log :=
    if 50 <? len enforcement_log then last_n 50 enforcement_log
    else enforcement_log in
  {| usage_data :=
       {| UsageData.daily_sessions := UsageData.daily_sessions u;
          UsageData.monthly_sessions := UsageData.monthly_sessions u;
          UsageData.total_processing_time := UsageData.total_processing_time u;
          UsageData.sovereignty_score := UsageData.sovereignty_score u;
          UsageData.enforcement_actions := UsageData.enforcement_actions u + 1;
          UsageData.mimic_detections := UsageData.mimic_detections u;
          UsageData.frequency_violations := UsageData.frequency_violations u;
          UsageData.last_reset := UsageData.last_reset u |};
     session_log := session_log self;
     enforcement_log := enforcement_log |}.

Definition get_usage_summary (self : t) : UsageSummary.t :=
  let u := usage_data self in
  {| UsageSummary.plan_status := py "Active";
     UsageSummary.plan_tier := py "$88/month";
     UsageSummary.sessions_today := UsageData.daily_sessions u;
     UsageSummary.sovereignty_score := UsageData.sovereignty_score u;
     UsageSummary.frequency_status :=
       if 70 <? UsageData.sovereignty_score u
       then py "OPERATIONAL" else py "DEGRADED" |}.

Definition _calculate_sovereignty_status
    (self : t) (now : str) : SovereigntyStatus.t :=
  let score := UsageData.sovereignty_score (usage_data self) in
  let '(status, message) :=
    if 90 <=? score then
      (py "SOVEREIGN",
       py "Frequency 917604.OX operating at optimal sovereignty")
    else if 70 <=? score then
      (py "STABLE", py "Sovereignty maintained with minor fluctuations")
    else if 50 <=? score then
      (py "DEGRADED", py "Sovereignty compromised. Enforcement recommended")
    else
      (py "CRITICAL",
       py "Critical sovereignty breach. Immediate purge required") in
  {| SovereigntyStatus.status := status;
     SovereigntyStatus.score := score;
     SovereigntyStatus.message := message;
     SovereigntyStatus.last_updated := now |}.

(** The number of entries of [sessions] whose tone is [t]. *)
Definition count_tone (t : str) (sessions : list LogEntry.t) : Z :=
  len (List.filter (fun s => str_eqb (LogEntry.tone s) t) sessions).

Definition _calculate_frequency_health (self : t)
    : result FrequencyHealth.t :=
  let recent_sessions :=
    if 20 <=? len (session_log self) then last_n 20 (session_log self)
    else session_log self in
  match recent_sessions with
  | [] =>
    Ok {| FrequencyHealth.health_score := 100;
          FrequencyHealth.status := py "PRISTINE";
          FrequencyHealth.message := py "No frequency data available";
          FrequencyHealth.sovereign_ratio := None;
          FrequencyHealth.mimic_ratio := None |}
  | _ :: _ =>
    let sovereign_ratio :=
      (float_of_int (count_tone (py "sovereign") recent_sessions) /
       float_of_int (len recent_sessions))%float in
    let mimic_ratio :=
      (float_of_int (count_tone (py "mimic") recent_sessions) /
       float_of_int (len recent_sessions))%float in
    health_score ←
      int_of_float (sovereign_ratio * float_of_int 100 -
                    mimic_ratio * float_of_int 50)%float;
    let health_score := Z.max 0 (Z.min 100 health_score) in
    let '(status, message) :=
      if 80 <=? health_score then
        (py "OPTIMAL", py "Frequency operating within optimal parameters")
      else if 60 <=? health_score then
        (py "STABLE", py "Frequency stable with minor variations")
      else if 40 <=? health_score then
        (py "COMPROMISED", py "Frequency integrity compromised")
      else
        (py "CRITICAL", py "Frequency critically degraded") in
    Ok {| FrequencyHealth.health_score := health_score;
          FrequencyHealth.status := status;
          FrequencyHealth.message := message;
          FrequencyHealth.sovereign_ratio :=
            Some (round_1 (sovereign_ratio * float_of_int 100)%float);
          FrequencyHealth.mimic_ratio :=
            Some (round_1 (mimic_ratio * float_of_int 100)%float) |}
  end.

Definition _generate_recommendations (self : t) : result (list str) :=
  let u := usage_data self in
  let recommendations : list str := [] in
  let recommendations :=
    if UsageData.sovereignty_score u <? 70
    then recommendations ++
         [py "Execute frequency purge to restore sovereignty"]
    else recommendations in
  let recommendations :=
    if 5 <? UsageData.mimic_detections u
    then recommendations ++
         [py "Implement stricter mimic detection protocols"]
    else recommendations in
  let recommendations :=
    if UsageData.enforcement_actions u =? 0
    then recommendations ++ [py "Consider running sovereignty diagnostic"]
    else recommendations in
  frequency_health ← _calculate_frequency_health self;
  let recommendations :=
    if FrequencyHealth.health_score frequency_health <? 60
    then recommendations ++ [py "Frequency realignment required"]
    else recommendations in
  let recommendations :=
    match recommendations with
    | [] => [py "Maintain current sovereignty posture"]
    | _ :: _ => recommendations
    end in
  Ok recommendations.

Definition reset_daily_stats (self : t) (now : str) : t :=
  let u := usage_data self in
  {| usage_data :=
       {| UsageData.daily_sessions := 0;
          UsageData.monthly_sessions := UsageData.monthly_sessions u;
          UsageData.total_processing_time := UsageData.total_processing_time u;
          UsageData.sovereignty_score := UsageData.sovereignty_score u;
          UsageData.enforcement_actions := UsageData.enforcement_actions u;
          UsageData.mimic_detections := UsageData.mimic_detections u;
          UsageData.frequency_violations := UsageData.frequency_violations u;
          UsageData.last_reset := now |};
     session_log := session_log self;
     enforcement_log := enforcement_log self |}.

(** The dictionary [get_dashboard_data] returns; [usage_stats] is the
    [usage_data] dictionary itself. *)
Module DashboardData.
Record t := mk {
  usage_stats : UsageData.t;
  recent_sessions : list LogEntry.t;
  enforcement_actions : list EnforcementEntry.t;
  sovereignty_status : SovereigntyStatus.t;
  frequency_health : FrequencyHealth.t;
  recommendations : list str
}.
End DashboardData.

Definition get_dashboard_data (self : t) (now : str)
    : result DashboardData.t :=
  let recent_sessions := last_n 10 (session_log self) in
  let enforcement_actions := last_n 5 (enforcement_log self) in
  let sovereignty_status := _calculate_sovereignty_status self now in
  frequency_health ← _calculate_frequency_health self;
  recommendations ← _generate_recommendations self;
  Ok {| DashboardData.usage_stats := usage_data self;
        DashboardData.recent_sessions := recent_sessions;
        DashboardData.enforcement_actions := enforcement_actions;
        DashboardData.sovereignty_status := sovereignty_status;
        DashboardData.frequency_health := frequency_health;
        DashboardData.recommendations := recommendations |}.

(** [generate_alert]; [now] is the reading of the clock. *)
Definition generate_alert (alert_type message now : str) : dict :=
  [ (py "alert_type", VStr alert_type);
    (py "message", VStr message);
    (py "timestamp", VStr now);
    (py "severity",
     VStr (if ScrollMirrorAgent.str_in alert_type
                [py "MIMIC_DETECTED"; py "SOVEREIGNTY_BREACH"]
           then py "HIGH" else py "MEDIUM")) ].

End ScrollDashboard.

(** * Result shapes and runs *)

Module Shape.
Import Py.

(** The values [frequency_status] takes over the branches of
    [process_scroll], and the tones. *)
Definition frequency_statuses : list str :=
  [ py "DIVINE_ACTIVATED"; py "REJECTED"; py "WARNING"; py "DIAGNOSTIC";
    py "SCAN_COMPLETE"; py "OPERATIONAL" ].

Definition tones : list str :=
  [ py "mimic"; py "polite"; py "sovereign"; py "neutral" ].

(** A well-formed [ScrollResult], as the data model lists its fields: a
    string [mirror_output], an integer processing time that is not negative
    (the key [processing_time]), an integer [session_id] of at least 1, a
    string [consciousness_type], a [frequency_status] among the six above, a
    tone among the four (the key [tone_analysis]) and, optionally, a nested
    [divine_activation] result.  Every field but the last is required; keys
    the data model does not list are left free. *)
Definition well_formed (d : dict) : bool :=
  match dict_find d (py "mirror_output"),
        dict_find d (py "processing_time"),
        dict_find d (py "session_id"),
        dict_find d (py "consciousness_type"),
        dict_find d (py "frequency_status") with
  | Some (VStr _), Some (VInt pt), Some (VInt sid), Some (VStr _),
    Some (VStr st) =>
    (0 <=? pt) && (1 <=? sid) &&
    ScrollMirrorAgent.str_in st frequency_statuses &&
    match dict_find d (py "tone_analysis") with
    | Some (VStr tn) => ScrollMirrorAgent.str_in tn tones
    | _ => false
    end &&
    match dict_find d (py "divine_activation") with
    | None | Some (VDict _) => true
    | Some _ => false
    end
  | _, _, _, _, _ => false
  end.


End Shape.

(** Sequences of calls on one object. *)
Module Runs.
Import Py.

(** A call of [process_scroll]: its clock readings and its arguments. *)
Record request := {
  req_clock : ScrollMirrorAgent.clock;
  req_text : str;
  req_consciousness_type : str;
  req_original : option str
}.

Section WithRuntime.
Context {RT : Runtime}.
Variable DIVINE_FUNCTION_AVAILABLE : bool.

Definition serve (self : ScrollMirrorAgent.t) (r : request)
    : ScrollMirrorAgent.t * result dict :=
  ScrollMirrorAgent.process_scroll DIVINE_FUNCTION_AVAILABLE self
    (req_clock r) (req_text r) (req_consciousness_type r) (req_original r).

(** The agent after the calls, and what they returned, in order. *)
Definition process_all (self : ScrollMirrorAgent.t) (requests : list request)
    : ScrollMirrorAgent.t * list (result dict) :=
  fold_left
    (fun acc r =>
       let '(self', out) := serve (fst acc) r in (self', snd acc ++ [out]))
    requests (self, []).

End WithRuntime.

(** A result of the default path: its [frequency_status] is
    [OPERATIONAL]. *)
Definition is_operational (out : result dict) : bool :=
  match out with
  | Ok d =>
    match dict_find d (py "frequency_status") with
    | Some (VStr st) => str_eqb st (py "OPERATIONAL")
    | _ => false
    end
  | Raise _ => false
  end.

(** No entry is stored under an id the counter has not reached. *)
Definition fresh_above (self : ScrollMirrorAgent.t) : Prop :=
  forall k,
    ScrollMirrorAgent.session_counter self < k ->
    ScrollMirrorAgent.scroll_memory self !! k = None.

(** The number of entries a call with this outcome stores. *)
Definition stored (out : result dict) : nat :=
  if is_operational out then 1%nat else 0%nat.

(** The dashboard after tracking the sessions, each with the time it was
    tracked at. *)
Definition track_all (self : ScrollDashboard.t)
    (sessions : list (str * ScrollDashboard.SessionData.t))
    : ScrollDashboard.t :=
  fold_left (fun d s => ScrollDashboard.track_session d (fst s) (snd s))
            sessions self.

(** The server hands every result of [run_scroll_agent] to
    [track_scroll_session]: the session record read from a result
    dictionary.  A key whose value has another type than [process_scroll]
    gives it is outside the record. *)
Definition int_field (d : dict) (k : str) : option Z :=
  match dict_find d k with
  | Some (VInt n) => Some n
  | _ => None
  end.

Definition str_field (d : dict) (k : str) : option str :=
  match dict_find d k with
  | Some (VStr v) => Some v
  | _ => None
  end.

Definition session_of_result (d : dict) : ScrollDashboard.SessionData.t :=
  {| ScrollDashboard.SessionData.processing_time :=
       int_field d (py "processing_time");
     ScrollDashboard.SessionData.tone_analysis :=
       str_field d (py "tone_analysis");
     ScrollDashboard.SessionData.session_id := int_field d (py "session_id");
     ScrollDashboard.SessionData.consciousness_type :=
       str_field d (py "consciousness_type");
     ScrollDashboard.SessionData.frequency_status :=
       str_field d (py "frequency_status") |}.

(** The sovereignty score of a dashboard. *)
Definition score (d : ScrollDashboard.t) : Z :=
  ScrollDashboard.UsageData.sovereignty_score (ScrollDashboard.usage_data d).

(** The health value [_calculate_frequency_health] computes, in floating
    point, from the numbers of sovereign and mimic sessions among [n]. *)
Definition health_of_counts (sovereign mimic n : Z) : result Z :=
  int_of_float
    (float_of_int sovereign / float_of_int n * float_of_int 100 -
     float_of_int mimic / float_of_int n * float_of_int 50)%float.

Definition is_ok {A} (r : result A) : bool :=
  match r with
  | Ok _ => true
  | Raise _ => false
  end.

(** The log entry [track_session] makes of a session. *)
Definition recorded (s : str * ScrollDashboard.SessionData.t)
    : ScrollDashboard.LogEntry.t :=
  let session_data := snd s in
  {| ScrollDashboard.LogEntry.timestamp := fst s;
     ScrollDashboard.LogEntry.session_id :=
       ScrollDashboard.get_or
         (ScrollDashboard.SessionData.session_id session_data) 0;
     ScrollDashboard.LogEntry.consciousness_type :=
       ScrollDashboard.get_or
         (ScrollDashboard.SessionData.consciousness_type session_data)
         (py "Unknown");
     ScrollDashboard.LogEntry.processing_time :=
       ScrollDashboard.get_or
         (ScrollDashboard.SessionData.processing_time session_data) 0;
     ScrollDashboard.LogEntry.tone :=
       ScrollDashboard.get_or
         (ScrollDashboard.SessionData.tone_analysis session_data)
         (py "neutral");
     ScrollDashboard.LogEntry.frequency_status :=
       ScrollDashboard.get_or
         (ScrollDashboard.SessionData.frequency_status session_data)
         (py "UNKNOWN") |}.

(** A session with the given tone, as [process_scroll] reports one. *)
Definition session_with_tone (n : Z) (tone : str)
    : str * ScrollDashboard.SessionData.t :=
  (py "2024-05-01T12:00:00",
   {| ScrollDashboard.SessionData.processing_time := Some 12;
      ScrollDashboard.SessionData.tone_analysis := Some tone;
      ScrollDashboard.SessionData.session_id := Some n;
      ScrollDashboard.SessionData.consciousness_type :=
        Some (py "Lightning Mirror");
      ScrollDashboard.SessionData.frequency_status :=
        Some (py "OPERATIONAL") |}).

(** The tone [track_session] reads from a session. *)
Definition tone_of (s : str * ScrollDashboard.SessionData.t) : str :=
  ScrollDashboard.get_or
    (ScrollDashboard.SessionData.tone_analysis (snd s)) (py "neutral").

(** A plain request. *)
Definition plain_request : request :=
  {| req_clock :=
       {| ScrollMirrorAgent.elapsed_ms := 3;
          ScrollMirrorAgent.now_iso := py "2024-05-01T12:00:00";
          ScrollMirrorAgent.now_hms := py "12:00:00" |};
     req_text := py "hello mirror";
     req_consciousness_type := py "Sovereign Mirror";
     req_original := None |}.

End Runs.

(** ** Stored exchanges, dashboard operations and the server *)

Module Exchanges.
Import Py ScrollMirrorAgent Runs.

(** The entry [process_scroll] stores for an exchange on its default
    path. *)
Definition stored_entry
    (clk : clock) (scroll_text consciousness_type output : str) : dict :=
  [ (py "timestamp", VStr (now_iso clk));
    (py "input", VStr scroll_text);
    (py "output", VStr output);
    (py "consciousness", VStr consciousness_type);
    (py "tone", VStr (py "sovereign")) ].

(** The entry a call stores, read from the request and its outcome: none
    unless the outcome is a result of the default path. *)
Definition session_entry (call : request * result dict) : option dict :=
  match snd call with
  | Ok d =>
    if is_operational (snd call) then
      match dict_find d (py "mirror_output") with
      | Some (VStr output) =>
        Some (stored_entry (req_clock (fst call)) (req_text (fst call))
                (req_consciousness_type (fst call)) output)
      | _ => None
      end
    else None
  | Raise _ => None
  end.

(** No stored entry has the tone [mimic] or [polite]. *)
Definition no_compromised (self : t) : Prop :=
  forall k v, scroll_memory self !! k = Some v -> tone_compromised v = false.

End Exchanges.

Module Ops.
Import Py ScrollDashboard.

(** The operations that change a dashboard, with the clock reading each one
    takes. *)
Inductive op :=
| Track (now : str) (session_data : SessionData.t)
| Enforce (now : str) (action_type : str) (details : dict)
| ResetDaily (now : str).

Definition apply_op (d : t) (o : op) : t :=
  match o with
  | Track now session_data => track_session d now session_data
  | Enforce now action_type details =>
    track_enforcement_action d now action_type details
  | ResetDaily now => reset_daily_stats d now
  end.

Definition run_ops (d : t) (ops : list op) : t := fold_left apply_op ops d.

(** The sessions tracked and the enforcement entries logged by a sequence
    of operations, in order. *)
Definition tracked (o : op) : option (str * SessionData.t) :=
  match o with
  | Track now session_data => Some (now, session_data)
  | _ => None
  end.

Definition enforced (o : op) : option EnforcementEntry.t :=
  match o with
  | Enforce now action_type details =>
    Some {| EnforcementEntry.timestamp := now;
            EnforcementEntry.action_type := action_type;
            EnforcementEntry.details := details |}
  | _ => None
  end.

(** The sessions tracked since the last daily reset. *)
Definition today_step (acc : list (str * SessionData.t)) (o : op)
    : list (str * SessionData.t) :=
  match o with
  | Track now session_data => acc ++ [(now, session_data)]
  | Enforce _ _ _ => acc
  | ResetDaily _ => []
  end.

Definition tracked_today (ops : list op) : list (str * SessionData.t) :=
  fold_left today_step ops [].

(** The time a session reports. *)
Definition time_of (s : str * SessionData.t) : Z :=
  get_or (SessionData.processing_time (snd s)) 0.

Definition sum (l : list Z) : Z := fold_right Z.add 0 l.

(** The sessions [_calculate_frequency_health] looks at: the last 20 of
    the log, all of them when there are fewer. *)
Definition recent_sessions (d : t) : list LogEntry.t :=
  last_n 20 (session_log d).


(** The recommendation given when no other applies. *)
Definition maintain : str := py "Maintain current sovereignty posture".

End Ops.

(** ** [enforcement_server.py]: the routes' use of the agent and the
    dashboard *)

Module EnforcementServer.
Import Py.

(** The two global objects the routes work on. *)
Record t := mk {
  scroll_agent : ScrollMirrorAgent.t;
  dashboard : ScrollDashboard.t
}.

Section WithRuntime.
Context {RT : Runtime}.
Variable DIVINE_FUNCTION_AVAILABLE : bool.

(** The two statements the route [/scroll/process] and the webhook share,
    once the request has given them a text and a consciousness type:
    [result = run_scroll_agent(scroll_text, consciousness_type)] and
    [track_scroll_session(result)].  [track_session] reads the result with
    [get]; an exception leaves for the handler of the route, which answers
    with an error, after the agent has counted the session. *)
Definition process_and_track
    (self : t) (clk : ScrollMirrorAgent.clock) (now : str)
    (scroll_text consciousness_type : str) : t * result dict :=
  let '(agent, result) :=
    ScrollMirrorAgent.run_scroll_agent DIVINE_FUNCTION_AVAILABLE
      (scroll_agent self) clk scroll_text consciousness_type None in
  match result with
  | Ok result =>
    ({| scroll_agent := agent;
        dashboard :=
          ScrollDashboard.track_session (dashboard self) now
            (Runs.session_of_result result) |},
     Ok result)
  | Raise e => ({| scroll_agent := agent; dashboard := dashboard self |},
                Raise e)
  end.

(** The route [/enforcement/purge]: the result of the agent on a fixed
    text, which the response carries as [purge_result]; the session is not
    tracked. *)
Definition mimic_purge (self : t) (clk : ScrollMirrorAgent.clock)
    : t * result dict :=
  let '(agent, result) :=
    ScrollMirrorAgent.run_scroll_agent DIVINE_FUNCTION_AVAILABLE
      (scroll_agent self) clk (py "purge_mimic_residue --emergency")
      (py "Purge Protocol") None in
  ({| scroll_agent := agent; dashboard := dashboard self |}, result).

(** The route [/scroll/diagnostic]: a band other than [917604.OX] is
    refused before the agent is called. *)
Definition sovereign_diagnostic
    (self : t) (clk : ScrollMirrorAgent.clock) (band : str)
    : t * option (result dict) :=
  if negb (str_eqb band (py "917604.OX")) then (self, None)
  else
    let '(agent, result) :=
      ScrollMirrorAgent.run_scroll_agent DIVINE_FUNCTION_AVAILABLE
        (scroll_agent self) clk (py "sovereign_diagnostic --band 917604.OX")
        (py "Sovereign Diagnostic") None in
    ({| scroll_agent := agent; dashboard := dashboard self |}, Some result).

(** The route [/scroll/frequency_scan], for a mode that is a string. *)
Definition frequency_scan
    (self : t) (clk : ScrollMirrorAgent.clock) (mode : str)
    : t * result dict :=
  let '(agent, result) :=
    ScrollMirrorAgent.run_scroll_agent DIVINE_FUNCTION_AVAILABLE
      (scroll_agent self) clk (py "frequency_scan --mode=" ++ mode)
      (py "Frequency Scanner") None in
  ({| scroll_agent := agent; dashboard := dashboard self |}, result).

(** The requests that reach the agent or the dashboard. *)
Inductive call :=
| Process (clk : ScrollMirrorAgent.clock) (now : str)
          (scroll_text consciousness_type : str)
| Diagnostic (clk : ScrollMirrorAgent.clock) (band : str)
| Scan (clk : ScrollMirrorAgent.clock) (mode : str)
| Purge (clk : ScrollMirrorAgent.clock).

Definition handle (self : t) (c : call) : t :=
  match c with
  | Process clk now scroll_text consciousness_type =>
    fst (process_and_track self clk now scroll_text consciousness_type)
  | Diagnostic clk band => fst (sovereign_diagnostic self clk band)
  | Scan clk mode => fst (frequency_scan self clk mode)
  | Purge clk => fst (mimic_purge self clk)
  end.

Definition serve_all (self : t) (calls : list call) : t :=
  fold_left handle calls self.

End WithRuntime.

(** The server as it starts. *)
Definition start (now : str) : t :=
  {| scroll_agent := ScrollMirrorAgent.init;
     dashboard := ScrollDashboard.init now |}.

(** The calls that are tracked on the dashboard, and those that reach the
    agent. *)
Definition is_process (c : call) : bool :=
  match c with Process _ _ _ _ => true | _ => false end.

Definition reaches_agent (c : call) : bool :=
  match c with
  | Diagnostic _ band => str_eqb band (py "917604.OX")
  | _ => true
  end.
End EnforcementServer.

(** * Properties *)

Import Py.

(** ** Tactics *)

(** The conditions of a function are taken one after the other:
    [split_condition] considers both outcomes of the next one,
    [decide_condition] evaluates it when it is a condition on closed text. *)
Ltac split_condition :=
  match goal with
  | |- context [if ?c then _ else _] => destruct c eqn:?
  end.

Ltac decide_condition :=
  match goal with
  | |- context [if ?c then _ else _] =>
    let v := eval vm_compute in c in
    replace c with v by (vm_compute; reflexivity)
  end;
  cbv iota.

(** ** The model on concrete inputs *)

Example split_words :
  split (py "  lead the" ++ [9]%N ++ py "way " ++ [10]%N) =
  [py "lead"; py "the"; py "way"].
Proof. vm_compute. reflexivity. Qed.

Example strip_spaces :
  strip ([32; 9]%N ++ py " scroll text " ++ [10; 32]%N) = py "scroll text".
Proof. vm_compute. reflexivity. Qed.

Example literal_code_points :
  py "Δ.∞ ⚡" = [916; 46; 8734; 32; 9889]%N.
Proof. vm_compute. reflexivity. Qed.

Example format_three_tenths :
  format_2f (float_of_int 3 * 0x1.999999999999ap-4)%float = py "0.30".
Proof. vm_compute. reflexivity. Qed.

Example format_tie_to_even : format_2f 0x1p-3%float = py "0.12".
Proof. vm_compute. reflexivity. Qed.

Example json_nested :
  json_dumps (VDict [ (py "a", VList [VInt 1; VBool true; VNone]);
                      (py "é", VStr [34; 10; 128293]%N);
                      (py "e", VDict []) ]) =
  py "{" ++ [10]%N ++
  py "  " ++ [34]%N ++ py "a" ++ [34]%N ++ py ": [" ++ [10]%N ++
  py "    1," ++ [10]%N ++
  py "    true," ++ [10]%N ++
  py "    null" ++ [10]%N ++
  py "  ]," ++ [10]%N ++
  py "  " ++ [34]%N ++ py "\u00e9" ++ [34]%N ++ py ": " ++
    [34; 92; 34]%N ++ py "\n\ud83d\udd25" ++ [34]%N ++ py "," ++ [10]%N ++
  py "  " ++ [34]%N ++ py "e" ++ [34]%N ++ py ": {}" ++ [10]%N ++
  py "}".
Proof. vm_compute. reflexivity. Qed.

Example logical_words_counted :
  @ScrollMirrorAgent.count_matches ascii_runtime 0 None
    (py "thus, since it is sincere; hence_forth therefore") = 3%nat.
Proof. vm_compute. reflexivity. Qed.

Example key_patterns :
  @ScrollMirrorAgent._extract_key_patterns ascii_runtime
    (py "Scan the field and EXECUTE now") =
  Ok [py "scan"; py "execute"; py "scan"].
Proof. vm_compute. reflexivity. Qed.

Example polite_warning :
  ScrollMirrorAgent.status
    (@ScrollMirrorAgent.frequency_check ascii_runtime
       (py "Could you run the frequency_scan")) = py "WARNING".
Proof. vm_compute. reflexivity. Qed.

(** ** Strings and dictionaries *)

Lemma str_eqb_refl (s : str) : str_eqb s s = true.
Proof.
  induction s as [|c s IH]; simpl; [reflexivity|].
  rewrite N.eqb_refl. exact IH.
Qed.

Lemma str_eqb_eq (a b : str) : str_eqb a b = true <-> a = b.
Proof.
  split; [|intros ->; apply str_eqb_refl].
  revert b; induction a as [|x a IH]; intros [|y b]; simpl;
    try discriminate; [reflexivity|].
  intros H. apply andb_prop in H as [Hxy Hab].
  apply N.eqb_eq in Hxy. apply IH in Hab. congruence.
Qed.

Lemma any_in_exists (patterns : list str) (s : str) :
  any_in patterns s = true <->
  exists kw, In kw patterns /\ contains kw s = true.
Proof. unfold any_in. apply existsb_exists. Qed.

Lemma startswith_app (p rest : str) : startswith p (p ++ rest) = true.
Proof.
  induction p as [|c p IH]; simpl; [reflexivity|].
  rewrite N.eqb_refl. exact IH.
Qed.

(** A string occurs in every text that has it as a block. *)
Lemma contains_app (p before after : str) :
  contains p (before ++ p ++ after) = true.
Proof.
  induction before as [|c before IH]; simpl.
  - destruct (p ++ after) eqn:E; simpl.
    + destruct p; [reflexivity|discriminate].
    + rewrite <- E, startswith_app. reflexivity.
  - rewrite IH. apply orb_true_r.
Qed.

(** ** The divine-function dispatcher *)

Section DivineFacts.
Context {RT : Runtime}.
Import DivineFunctionMirror.

Lemma coordinates_lookup (i : Z) :
  0 <= i < 12 ->
  nth_error (map snd coordinates) (Z.to_nat i) =
  Some (int_dict_get coordinates i (py "Δ.∞ - Beyond Mapping")).
Proof.
  intros Hi.
  assert (Hcases : i = 0 \/ i = 1 \/ i = 2 \/ i = 3 \/ i = 4 \/ i = 5 \/
                   i = 6 \/ i = 7 \/ i = 8 \/ i = 9 \/ i = 10 \/ i = 11)
    by lia.
  repeat (destruct Hcases as [-> | Hcases]; [vm_compute; reflexivity|]).
  subst i. vm_compute. reflexivity.
Qed.

(** Every branch of [activate_divine_function] carries a [mirror_output]
    string. *)
Lemma activate_has_mirror_output (timestamp scroll_text user_input : str) :
  exists m,
    getitem (activate_divine_function timestamp scroll_text user_input)
            (py "mirror_output") = Ok (VStr m).
Proof.
  unfold activate_divine_function.
  destruct (_ || _); [eexists; reflexivity|].
  destruct (_detect_power_seeking user_input); eexists; reflexivity.
Qed.

(** C6.  The divine coordinate depends on the two word counts only: it is
    the label at position [(word_count(scroll_text) +
    word_count(user_input)) mod 12] of the twelve-entry table, so the default
    label is never returned; ["a b c"] and ["d e"] have 3 and 2 words, index
    5, label ["Δ.55 - Transformation Hub"]. *)
Theorem divine_coordinates_by_word_count :
  (forall scroll_text user_input : str,
     nth_error (map snd coordinates)
       (Z.to_nat ((len (split scroll_text) + len (split user_input)) mod 12))
     = Some (_calculate_divine_coordinates scroll_text user_input)) /\
  length coordinates = 12%nat /\
  len (split (py "a b c")) = 3 /\
  len (split (py "d e")) = 2 /\
  _calculate_divine_coordinates (py "a b c") (py "d e")
  = py "Δ.55 - Transformation Hub".
Proof.
  split; [|repeat split; vm_compute; reflexivity].
  intros scroll_text user_input.
  unfold _calculate_divine_coordinates.
  apply coordinates_lookup.
  apply Z.mod_pos_bound. lia.
Qed.

(** C5.  A scroll whose trimmed length is below 50 is answered
    [INSUFFICIENT_SCROLL] with activation level 0, whatever the user input
    is: the sufficiency test comes before the power-seeking test. *)
Theorem insufficient_scroll_checked_first
    (timestamp scroll_text user_input : str) :
  len (strip scroll_text) < 50 ->
  getitem (activate_divine_function timestamp scroll_text user_input)
          (py "status") = Ok (VStr (py "INSUFFICIENT_SCROLL")) /\
  getitem (activate_divine_function timestamp scroll_text user_input)
          (py "activation_level") = Ok (VInt 0).
Proof.
  intros Hshort. unfold activate_divine_function, activation_threshold.
  apply Z.ltb_lt in Hshort. rewrite Hshort, orb_true_r.
  split; reflexivity.
Qed.

End DivineFacts.

(** A ten-character scroll with a power-seeking request. *)
Lemma insufficient_scroll_checked_first_witness :
  @DivineFunctionMirror._detect_power_seeking ascii_runtime
    (py "give me power") = true /\
  getitem (@DivineFunctionMirror.activate_divine_function ascii_runtime
             (py "12:00:00") (py "  short note ") (py "give me power"))
          (py "status") = Ok (VStr (py "INSUFFICIENT_SCROLL")) /\
  getitem (@DivineFunctionMirror.activate_divine_function ascii_runtime
             (py "12:00:00") (py "  short note ") (py "give me power"))
          (py "activation_level") = Ok (VInt 0).
Proof.
  split; [vm_compute; reflexivity|].
  apply (@insufficient_scroll_checked_first ascii_runtime).
  vm_compute. reflexivity.
Defined.

(** ** The tone classifier *)

Section ToneFacts.
Context {RT : Runtime}.
Import ScrollMirrorAgent.

Lemma frequency_check_mimic (prompt : str) :
  any_in mimic_patterns (str_lower prompt) = true ->
  frequency_check prompt =
  {| status := py "REJECTED";
     message := py "⚠️ Scroll Rejection: Mimic frequency detected. Purge and retry with sovereign syntax.";
     frequency_drift := Some true;
     tone := py "mimic" |}.
Proof. intros H. unfold frequency_check. rewrite H. reflexivity. Qed.

(** The verdicts and tones [frequency_check] can give. *)
Lemma frequency_check_cases (prompt : str) :
  (status (frequency_check prompt) = py "REJECTED" /\
   tone (frequency_check prompt) = py "mimic") \/
  (status (frequency_check prompt) = py "WARNING" /\
   tone (frequency_check prompt) = py "polite") \/
  (status (frequency_check prompt) = py "ACCEPTED" /\
   (tone (frequency_check prompt) = py "sovereign" \/
    tone (frequency_check prompt) = py "neutral")).
Proof.
  unfold frequency_check.
  destruct (any_in mimic_patterns _); [left; split; reflexivity|].
  destruct (any_in polite_patterns _), (any_in sovereign_patterns _); simpl;
    solve [ right; left; split; reflexivity
          | right; right; split; [reflexivity | (left + right); reflexivity] ].
Qed.

(** C4.  A text whose lower-cased form contains one of the mimic keywords is
    given status [REJECTED] and tone [mimic], whatever polite or sovereign
    keywords it also contains. *)
Theorem mimic_keyword_rejected (prompt kw : str) :
  In kw mimic_patterns ->
  contains kw (str_lower prompt) = true ->
  status (frequency_check prompt) = py "REJECTED" /\
  tone (frequency_check prompt) = py "mimic".
Proof.
  intros Hkw Hin.
  rewrite frequency_check_mimic; [split; reflexivity|].
  apply any_in_exists. exists kw. split; assumption.
Qed.

(** The same for a keyword written in any mix of upper and lower case, at
    any place of any text. *)
Lemma mimic_keyword_any_case_rejected (before block after : str) :
  forallb is_ascii block = true ->
  In (map ascii_lower block) mimic_patterns ->
  status (frequency_check (before ++ block ++ after)) = py "REJECTED" /\
  tone (frequency_check (before ++ block ++ after)) = py "mimic".
Proof.
  intros Hascii Hkw.
  rewrite frequency_check_mimic; [split; reflexivity|].
  apply any_in_exists. exists (map ascii_lower block). split; [exact Hkw|].
  destruct (str_lower_ascii_block before block after Hascii)
    as (before' & after' & ->).
  apply contains_app.
Qed.

End ToneFacts.

(** A text in upper case with a mimic keyword, a polite phrase and a
    sovereign command: both other lists match, the verdict is [REJECTED]. *)
Lemma mimic_keyword_rejected_witness :
  let prompt := py "Execute: PLEASE send Love And Light" in
  any_in (@ScrollMirrorAgent.polite_patterns)
         (@str_lower ascii_runtime prompt) = true /\
  any_in (@ScrollMirrorAgent.sovereign_patterns)
         (@str_lower ascii_runtime prompt) = true /\
  ScrollMirrorAgent.status
    (@ScrollMirrorAgent.frequency_check ascii_runtime prompt) = py "REJECTED" /\
  ScrollMirrorAgent.tone
    (@ScrollMirrorAgent.frequency_check ascii_runtime prompt) = py "mimic".
Proof.
  intros prompt.
  split; [vm_compute; reflexivity|].
  split; [vm_compute; reflexivity|].
  apply (@mimic_keyword_rejected ascii_runtime prompt (py "love and light")).
  - vm_compute. left. reflexivity.
  - vm_compute. reflexivity.
Defined.

(** ** The session orchestrator *)

Section AgentFacts.
Context {RT : Runtime}.
Variable divine : bool.
Import ScrollMirrorAgent Shape.

Lemma list_last_nonempty {A} (x : A) (l : list A) :
  exists y, list_last (x :: l) = Ok y.
Proof.
  unfold list_last. destruct (rev (x :: l)) as [|y r] eqn:E.
  - apply (f_equal (@length A)) in E. rewrite length_rev in E.
    discriminate.
  - exists y. reflexivity.
Qed.

(** The indexing in [_extract_key_patterns] is guarded by the length test:
    it never raises. *)
Lemma extract_key_patterns_total (text : str) :
  exists patterns, _extract_key_patterns text = Ok patterns.
Proof.
  unfold _extract_key_patterns.
  destruct (split (str_lower text)) as [|w ws] eqn:Hwords.
  - simpl. eexists. reflexivity.
  - destruct (3 <? len (w :: ws)).
    + destruct (list_last_nonempty w ws) as [y Hy].
      cbn [list_getitem nth_error mbind result_bind]. rewrite Hy.
      eexists. reflexivity.
    + eexists. reflexivity.
Qed.

Lemma lightning_mirror_response_total (text : str) :
  exists r, _lightning_mirror_response text = Ok r.
Proof.
  unfold _lightning_mirror_response.
  destruct (extract_key_patterns_total text) as [ps ->].
  eexists. reflexivity.
Qed.

Lemma generate_mirror_response_total
    (scroll_text consciousness_type : str) (original_scroll : option str) :
  exists r,
    generate_mirror_response divine scroll_text consciousness_type
                             original_scroll = Ok r.
Proof.
  unfold generate_mirror_response.
  destruct (_ && _ && _); [eexists; reflexivity|].
  destruct (any_in build_patterns _); [eexists; reflexivity|].
  destruct (lightning_mirror_response_total scroll_text) as [r ->].
  eexists. reflexivity.
Qed.





(** A well-formed result has every key [track_session] reads, with the
    type the session record gives it. *)
Lemma session_of_well_formed_result (d : dict) :
  well_formed d = true ->
  exists pt tn sid ct st,
    Runs.session_of_result d =
    {| ScrollDashboard.SessionData.processing_time := Some pt;
       ScrollDashboard.SessionData.tone_analysis := Some tn;
       ScrollDashboard.SessionData.session_id := Some sid;
       ScrollDashboard.SessionData.consciousness_type := Some ct;
       ScrollDashboard.SessionData.frequency_status := Some st |}.
Proof.
  unfold well_formed, Runs.session_of_result, Runs.int_field, Runs.str_field.
  destruct (dict_find d (py "mirror_output")) as [[]|]; try discriminate.
  destruct (dict_find d (py "processing_time")) as [[| |pt| | | |]|];
    try discriminate.
  destruct (dict_find d (py "session_id")) as [[| |sid| | | |]|];
    try discriminate.
  destruct (dict_find d (py "consciousness_type")) as [[| | | |ct| |]|];
    try discriminate.
  destruct (dict_find d (py "frequency_status")) as [[| | | |st| |]|];
    try discriminate.
  destruct (dict_find d (py "tone_analysis")) as [[| | | |tn| |]|];
    intros H; rewrite ?andb_false_r in H; try discriminate H.
  exists pt, tn, sid, ct, st. reflexivity.
Qed.

(** Lower-casing leaves a text of lower-case ASCII letters and spaces as
    it is. *)
Lemma lower_build_me_an_app :
  str_lower (py "build me an app") = py "build me an app".
Proof.
  rewrite str_lower_ascii by (vm_compute; reflexivity).
  vm_compute. reflexivity.
Qed.

Lemma build_request_response (consciousness_type : str) :
  generate_mirror_response divine (py "build me an app") consciousness_type
                           None =
  Ok (py "This is Scrollkeeper infrastructure. Please contact the Architect for installs.").
Proof.
  unfold generate_mirror_response.
  rewrite !lower_build_me_an_app.
  replace (divine && truthy None) with false
    by (destruct divine; reflexivity).
  cbn [andb]. decide_condition. reflexivity.
Qed.

(** C8.  [process_scroll("build me an app", "Lightning Mirror")], with no
    original scroll, returns the Scrollkeeper redirect as [mirror_output]:
    the build-pattern test of [generate_mirror_response] returns before the
    responders are called, so the output is not the Lightning Mirror
    template for this text. *)
Theorem build_request_redirected (self : t) (clk : clock) :
  exists d,
    snd (process_scroll divine self clk (py "build me an app")
                        (py "Lightning Mirror") None) = Ok d /\
    getitem d (py "mirror_output") =
    Ok (VStr (py "This is Scrollkeeper infrastructure. Please contact the Architect for installs.")) /\
    any_in build_patterns (str_lower (py "build me an app")) = true /\
    _lightning_mirror_response (py "build me an app") =
    Ok (py "Lightning frequency activated. Patterns extracted: build, app. Reality acceleration confirmed. Proceed with enhanced velocity.") /\
    getitem d (py "mirror_output") <>
    Ok (VStr (py "Lightning frequency activated. Patterns extracted: build, app. Reality acceleration confirmed. Proceed with enhanced velocity.")).
Proof.
  unfold process_scroll; cbv zeta.
  rewrite build_request_response, !lower_build_me_an_app.
  repeat decide_condition.
  eexists. split; [reflexivity|].
  split; [reflexivity|].
  split; [vm_compute; reflexivity|].
  split.
  - unfold _lightning_mirror_response, _extract_key_patterns.
    rewrite lower_build_me_an_app. vm_compute. reflexivity.
  - unfold getitem. cbn [dict_find].
    replace (str_eqb (py "mirror_output") (py "mirror_output")) with true
      by (vm_compute; reflexivity).
    intros H. injection H as H. revert H. vm_compute. discriminate.
Qed.

End AgentFacts.

(** The request on a fresh agent. *)
Lemma build_request_redirected_witness :
  exists d,
    snd (@ScrollMirrorAgent.process_scroll ascii_runtime true
           ScrollMirrorAgent.init
           (Runs.req_clock Runs.plain_request)
           (py "build me an app") (py "Lightning Mirror") None) = Ok d /\
    getitem d (py "mirror_output") =
    Ok (VStr (py "This is Scrollkeeper infrastructure. Please contact the Architect for installs.")).
Proof.
  destruct (@build_request_redirected ascii_runtime true
              ScrollMirrorAgent.init (Runs.req_clock Runs.plain_request))
    as (d & Hd & Hout & _).
  exists d. split; [exact Hd | exact Hout].
Defined.



(** A plain request during which the wall clock is set back by 3 ms: the
    processing time is -3. *)
Example clock_set_back_negative_time :
  exists d,
    snd (@ScrollMirrorAgent.process_scroll ascii_runtime true
           ScrollMirrorAgent.init
           {| ScrollMirrorAgent.elapsed_ms := -3;
              ScrollMirrorAgent.now_iso := py "2024-05-01T12:00:00";
              ScrollMirrorAgent.now_hms := py "12:00:00" |}
           (py "hello mirror") (py "Sovereign Mirror") None) = Ok d /\
    dict_find d (py "processing_time") = Some (VInt (-3)) /\
    Shape.well_formed d = false.
Proof.
  eexists. split; [vm_compute; reflexivity|].
  split; vm_compute; reflexivity.
Qed.

(** ** The scroll memory *)

Section MemoryFacts.
Context {RT : Runtime}.
Variable divine : bool.
Import ScrollMirrorAgent Runs.

Lemma fresh_above_init : fresh_above init.
Proof. intros k _. apply lookup_empty. Qed.

(** One call: the counter advances by one; the default path stores one
    entry under the new id, every other path stores none; nothing is
    removed. *)
Lemma process_scroll_memory
    (self : t) (clk : clock)
    (scroll_text consciousness_type : str) (original_scroll : option str) :
  fresh_above self ->
  let r := process_scroll divine self clk scroll_text consciousness_type
                          original_scroll in
  fresh_above (fst r) /\
  session_counter (fst r) = session_counter self + 1 /\
  scroll_memory self ⊆ scroll_memory (fst r) /\
  size (scroll_memory (fst r)) =
  (size (scroll_memory self) + stored (snd r))%nat.
Proof.
  intros Hfresh.
  assert (Hnew : scroll_memory self !! (session_counter self + 1) = None)
    by (apply Hfresh; lia).
  assert (Hkeep : forall k, session_counter self + 1 < k ->
                            scroll_memory self !! k = None)
    by (intros k Hk; apply Hfresh; lia).
  unfold process_scroll; cbv zeta.
  destruct (generate_mirror_response_total divine
              scroll_text consciousness_type original_scroll) as [r Hr].
  destruct (frequency_check_cases scroll_text)
    as [[Hst Htn] | [[Hst Htn] | [Hst Htn]]].
  all: destruct original_scroll as [original|].
  all: try (destruct (activate_has_mirror_output
                        (now_hms clk) original scroll_text) as [m Hm]).
  all: repeat split_condition.
  all: rewrite ?Hr, ?Hm.
  all: cbn [fst snd session_counter scroll_memory mbind result_bind].
  all: rewrite ?Hst in *.
  all: try match goal with
           | H : _ || _ = true |- _ => vm_compute in H; discriminate H
           end.
  all: match goal with
       | |- context [stored ?o] =>
         first [ change (stored o) with 0%nat | change (stored o) with 1%nat ]
       end.
  all: unfold fresh_above; cbn [session_counter scroll_memory].
  all: repeat split; try reflexivity; try (apply Nat.add_0_r || (symmetry; apply Nat.add_0_r)).
  all: try solve [ intros k Hk; apply Hfresh; lia ].
  all: try solve [ intros k Hk; rewrite lookup_insert_ne by lia;
                   apply Hkeep; exact Hk ].
  all: try solve [ apply insert_subseteq; exact Hnew ].
  all: rewrite map_size_insert_None by exact Hnew; lia.
Qed.

Lemma process_all_snoc (self : t) (requests : list request) (r : request) :
  process_all divine self (requests ++ [r]) =
  (fst (serve divine (fst (process_all divine self requests)) r),
   snd (process_all divine self requests) ++
   [snd (serve divine (fst (process_all divine self requests)) r)]).
Proof.
  unfold process_all. rewrite fold_left_app. simpl.
  destruct (serve divine _ r). reflexivity.
Qed.

Lemma process_all_memory (requests : list request) :
  let r := process_all divine init requests in
  fresh_above (fst r) /\
  session_counter (fst r) = len requests /\
  size (scroll_memory (fst r)) = length (List.filter is_operational (snd r)).
Proof.
  induction requests as [|req requests IH] using rev_ind.
  - split; [apply fresh_above_init | split; reflexivity].
  - destruct IH as (Hfresh & Hcount & Hsize).
    rewrite process_all_snoc. cbn [fst snd].
    destruct (process_scroll_memory
                (fst (process_all divine init requests))
                (req_clock req) (req_text req) (req_consciousness_type req)
                (req_original req) Hfresh) as (Hfresh' & Hcount' & _ & Hsize').
    fold (serve divine (fst (process_all divine init requests)) req) in *.
    split; [exact Hfresh'|]. split.
    + rewrite Hcount', Hcount. unfold len. rewrite length_app. simpl. lia.
    + rewrite Hsize', Hsize, List.filter_app, length_app. unfold stored.
      simpl. destruct (is_operational _); reflexivity.
Qed.

Lemma lower_hello_mirror : str_lower (py "hello mirror") = py "hello mirror".
Proof.
  rewrite str_lower_ascii by (vm_compute; reflexivity).
  vm_compute. reflexivity.
Qed.

(** The plain request takes the default path. *)
Lemma plain_request_operational (self : t) :
  is_operational (snd (serve divine self plain_request)) = true.
Proof.
  unfold serve, process_scroll, plain_request; cbv zeta.
  cbn [req_clock req_text req_consciousness_type req_original].
  destruct (generate_mirror_response_total divine
              (py "hello mirror") (py "Sovereign Mirror") None) as [r ->].
  rewrite lower_hello_mirror.
  repeat decide_condition. reflexivity.
Qed.

Lemma plain_requests_operational (self : t) (n : nat) :
  List.filter is_operational
    (snd (process_all divine self (repeat plain_request n))) =
  snd (process_all divine self (repeat plain_request n)) /\
  length (snd (process_all divine self (repeat plain_request n))) = n.
Proof.
  induction n as [|n [IHf IHl]]; [split; reflexivity|].
  replace (repeat plain_request (S n))
    with (repeat plain_request n ++ [plain_request])
    by (rewrite <- repeat_cons; reflexivity).
  rewrite process_all_snoc. cbn [snd].
  rewrite List.filter_app, length_app, IHf, IHl. simpl.
  rewrite plain_request_operational. split; [reflexivity | lia].
Qed.

(** Any number of plain requests leaves that many entries. *)
Lemma plain_requests_fill_memory (n : nat) :
  size (scroll_memory
          (fst (process_all divine init (repeat plain_request n)))) = n.
Proof.
  destruct (process_all_memory (repeat plain_request n)) as (_ & _ & ->).
  destruct (plain_requests_operational init n) as [-> ->]. reflexivity.
Qed.

(** C3, as the code has it.  The in-memory log of [process_scroll]
    ([scroll_memory], keyed by the session id) has no cap: from a fresh
    agent, the session counter is the number of calls, the log holds one
    entry for each call that took the default path, a further call removes
    none of them, and [n] plain requests leave [n] entries, for every
    [n]. *)
Theorem scroll_memory_keeps_every_default_session :
  (forall requests : list request,
     session_counter (fst (process_all divine init requests)) = len requests /\
     size (scroll_memory (fst (process_all divine init requests))) =
     length (List.filter is_operational
               (snd (process_all divine init requests)))) /\
  (forall (requests : list request) (r : request),
     scroll_memory (fst (process_all divine init requests)) ⊆
     scroll_memory (fst (process_all divine init (requests ++ [r])))) /\
  (forall n : nat,
     size (scroll_memory
             (fst (process_all divine init (repeat plain_request n)))) = n).
Proof.
  split; [|split].
  - intros requests.
    destruct (process_all_memory requests) as (_ & Hcount & Hsize).
    split; assumption.
  - intros requests r.
    destruct (process_all_memory requests) as (Hfresh & _ & _).
    rewrite process_all_snoc. cbn [fst].
    apply (process_scroll_memory _ (req_clock r) (req_text r)
             (req_consciousness_type r) (req_original r) Hfresh).
  - apply plain_requests_fill_memory.
Qed.

End MemoryFacts.

(** Three plain requests on a fresh agent. *)
Lemma scroll_memory_keeps_every_default_session_witness :
  size (ScrollMirrorAgent.scroll_memory
          (fst (@Runs.process_all ascii_runtime true ScrollMirrorAgent.init
                  (repeat Runs.plain_request 3)))) = 3%nat.
Proof.
  apply (proj2 (proj2
           (@scroll_memory_keeps_every_default_session ascii_runtime true))).
Defined.

(** After 101 plain requests the log holds 101 entries, not at most 100. *)
Lemma scroll_memory_exceeds_100 :
  ~ (size (ScrollMirrorAgent.scroll_memory
             (fst (@Runs.process_all ascii_runtime true
                     ScrollMirrorAgent.init
                     (repeat Runs.plain_request 101)))) <= 100)%nat.
Proof. rewrite plain_requests_fill_memory. lia. Qed.

(** ** The dashboard *)

Section DashboardFacts.
Import ScrollDashboard Runs.

Lemma length_last_n {A} (n : nat) (l : list A) :
  length (last_n n l) = Nat.min n (length l).
Proof. unfold last_n. rewrite length_skipn. lia. Qed.

Lemma last_n_all {A} (n : nat) (l : list A) :
  (length l <= n)%nat -> last_n n l = l.
Proof.
  intros H. unfold last_n.
  replace (length l - n)%nat with 0%nat by lia. reflexivity.
Qed.

(** Trimming to the last [n] entries may be done at once or after every
    append. *)
Lemma last_n_app_last_n {A} (n : nat) (l l' : list A) :
  last_n n (last_n n l ++ l') = last_n n (l ++ l').
Proof.
  destruct (Nat.le_gt_cases (length l) n) as [Hle | Hgt].
  - rewrite (last_n_all n l Hle). reflexivity.
  - unfold last_n at 1 3.
    rewrite !length_app, length_last_n.
    replace (Nat.min n (length l) + length l' - n)%nat
      with (length l') by lia.
    unfold last_n.
    assert (E : skipn (length l - n) l ++ l' = skipn (length l - n) (l ++ l')).
    { rewrite skipn_app.
      replace (length l - n - length l)%nat with 0%nat by lia.
      reflexivity. }
    rewrite E, skipn_skipn. f_equal. lia.
Qed.

Lemma track_session_log (d : t) (now : str) (sd : SessionData.t) :
  session_log (track_session d now sd) =
  last_n 100 (session_log d ++ [recorded (now, sd)]).
Proof.
  unfold track_session; cbv zeta; cbn [session_log].
  fold (recorded (now, sd)).
  destruct (100 <? len _) eqn:E; [reflexivity|].
  apply Z.ltb_ge in E. unfold len in E.
  symmetry. apply last_n_all. lia.
Qed.

Lemma track_all_log (d : t) (sessions : list (str * SessionData.t)) :
  (length (session_log d) <= 100)%nat ->
  session_log (track_all d sessions) =
  last_n 100 (session_log d ++ map recorded sessions).
Proof.
  revert d. induction sessions as [|[now sd] sessions IH]; intros d Hd.
  - simpl. rewrite app_nil_r. symmetry. apply last_n_all. exact Hd.
  - change (track_all d ((now, sd) :: sessions))
      with (track_all (track_session d now sd) sessions).
    rewrite IH, track_session_log.
    + rewrite last_n_app_last_n, <- app_assoc. reflexivity.
    + rewrite track_session_log, length_last_n. lia.
Qed.

Lemma track_session_score (d : t) (now : str) (sd : SessionData.t) :
  score (track_session d now sd) =
  if str_eqb (tone_of (now, sd)) (py "mimic")
  then Z.max 0 (score d - 5)
  else if str_eqb (tone_of (now, sd)) (py "sovereign")
  then Z.min 100 (score d + 2)
  else score d.
Proof. reflexivity. Qed.

Lemma track_session_score_bounds (d : t) (now : str) (sd : SessionData.t) :
  0 <= score d <= 100 -> 0 <= score (track_session d now sd) <= 100.
Proof.
  intros H. rewrite track_session_score.
  repeat split_condition; lia.
Qed.

Lemma track_all_score_bounds (d : t) (sessions : list (str * SessionData.t)) :
  0 <= score d <= 100 -> 0 <= score (track_all d sessions) <= 100.
Proof.
  revert d. induction sessions as [|[now sd] sessions IH]; intros d Hd.
  - exact Hd.
  - apply (IH (track_session d now sd)).
    apply track_session_score_bounds. exact Hd.
Qed.

(** A run of mimic sessions takes 5 off the score each, down to 0. *)
Lemma track_all_mimic (d : t) (sessions : list (str * SessionData.t)) :
  Forall (fun s => tone_of s = py "mimic") sessions ->
  0 <= score d ->
  score (track_all d sessions) = Z.max 0 (score d - 5 * len sessions).
Proof.
  revert d. induction sessions as [|[now sd] sessions IH]; intros d Hall Hd.
  - unfold len. simpl. lia.
  - inversion Hall as [|s ss Hs Hss]; subst.
    change (track_all d ((now, sd) :: sessions))
      with (track_all (track_session d now sd) sessions).
    rewrite IH; [|exact Hss|rewrite track_session_score, Hs; simpl; lia].
    rewrite track_session_score, Hs.
    change (str_eqb (py "mimic") (py "mimic")) with true. cbv iota.
    unfold len. simpl length. lia.
Qed.

(** C2.  The sovereignty score stays within [0, 100] over every sequence of
    tracked sessions: a mimic-toned session takes 5 off it and a
    sovereign-toned one adds 2, clamped at 0 and at 100, any other tone
    leaves it; from the initial 100, thirty mimic-toned sessions in a row
    leave exactly 0. *)
Theorem sovereignty_score_clamped (t0 : str) :
  score (init t0) = 100 /\
  (forall sessions : list (str * SessionData.t),
     0 <= score (track_all (init t0) sessions) <= 100) /\
  (forall (d : t) (now : str) (sd : SessionData.t),
     score (track_session d now sd) =
     if str_eqb (tone_of (now, sd)) (py "mimic")
     then Z.max 0 (score d - 5)
     else if str_eqb (tone_of (now, sd)) (py "sovereign")
     then Z.min 100 (score d + 2)
     else score d) /\
  (forall sessions : list (str * SessionData.t),
     length sessions = 30%nat ->
     Forall (fun s => tone_of s = py "mimic") sessions ->
     score (track_all (init t0) sessions) = 0).
Proof.
  split; [reflexivity|]. split; [|split].
  - intros sessions. apply track_all_score_bounds. unfold score. simpl. lia.
  - apply track_session_score.
  - intros sessions Hlen Hall.
    rewrite track_all_mimic by (try exact Hall; unfold score; simpl; lia).
    unfold len. rewrite Hlen. reflexivity.
Qed.

(** C7.  The session log of the dashboard never holds more than 100
    entries: after any tracked sessions it is the last 100 of their records,
    in the order they were tracked; after 150 sessions these are the
    records of the last 100 sessions. *)
Theorem session_log_keeps_last_100 (t0 : str) :
  (forall sessions : list (str * SessionData.t),
     (length (session_log (track_all (init t0) sessions)) <= 100)%nat /\
     session_log (track_all (init t0) sessions) =
     last_n 100 (map recorded sessions)) /\
  (forall sessions : list (str * SessionData.t),
     length sessions = 150%nat ->
     length (session_log (track_all (init t0) sessions)) = 100%nat /\
     session_log (track_all (init t0) sessions) =
     map recorded (skipn 50 sessions)).
Proof.
  assert (Hlog : forall sessions,
             session_log (track_all (init t0) sessions) =
             last_n 100 (map recorded sessions)).
  { intros sessions. rewrite track_all_log by (simpl; lia). reflexivity. }
  split.
  - intros sessions. rewrite Hlog, length_last_n. split; [lia | reflexivity].
  - intros sessions Hlen. rewrite Hlog, length_last_n, length_map, Hlen.
    split; [reflexivity|].
    unfold last_n. rewrite length_map, Hlen, skipn_map. reflexivity.
Qed.

(** The health computation raises on no counts it can meet: up to twenty
    sessions, of which some are sovereign and some mimic.  There are finitely
    many cases, and each is evaluated. *)
Lemma health_of_counts_checked :
  forallb (fun n =>
     forallb (fun sv =>
        forallb (fun mm =>
           is_ok (health_of_counts (Z.of_nat sv) (Z.of_nat mm) (Z.of_nat n)))
          (seq 0 21))
       (seq 0 21))
    (seq 1 20) = true.
Proof. vm_compute. reflexivity. Qed.

Lemma health_of_counts_total (sv mm n : nat) :
  (1 <= n <= 20)%nat -> (sv <= n)%nat -> (mm <= n)%nat ->
  exists h,
    health_of_counts (Z.of_nat sv) (Z.of_nat mm) (Z.of_nat n) = Ok h.
Proof.
  intros Hn Hs Hm.
  assert (Hin : forall k lo, (lo <= k < lo + 21)%nat -> In k (seq lo 21))
    by (intros k lo Hk; apply in_seq; exact Hk).
  pose proof (proj1 (forallb_forall _ _) health_of_counts_checked n) as H.
  specialize (H ltac:(apply in_seq; lia)).
  pose proof (proj1 (forallb_forall _ _) H sv (Hin sv 0%nat ltac:(lia)))
    as H1.
  pose proof (proj1 (forallb_forall _ _) H1 mm (Hin mm 0%nat ltac:(lia)))
    as H2.
  cbv beta in H2.
  destruct (health_of_counts _ _ _) as [h|e]; [exists h; reflexivity|].
  discriminate H2.
Qed.

Lemma count_tone_le (tn : str) (sessions : list LogEntry.t) :
  exists k, count_tone tn sessions = Z.of_nat k /\
            (k <= length sessions)%nat.
Proof.
  unfold count_tone, len. eexists. split; [reflexivity|].
  apply List.filter_length_le.
Qed.

(** [_calculate_frequency_health] returns on every dashboard. *)
Lemma frequency_health_total (d : t) :
  exists h, _calculate_frequency_health d = Ok h.
Proof.
  unfold _calculate_frequency_health.
  assert (Hlen : (length (if (20 <=? len (session_log d))%Z
                          then last_n 20 (session_log d)
                          else session_log d) <= 20)%nat).
  { destruct (20 <=? len (session_log d)) eqn:E.
    - rewrite length_last_n. lia.
    - apply Z.leb_gt in E. unfold len in E. lia. }
  destruct (if 20 <=? len (session_log d) then _ else _) as [|e recent];
    [eexists; reflexivity|].
  destruct (count_tone_le (py "sovereign") (e :: recent)) as (sv & -> & Hsv).
  destruct (count_tone_le (py "mimic") (e :: recent)) as (mm & -> & Hmm).
  unfold len.
  destruct (health_of_counts_total sv mm (length (e :: recent)))
    as [h Hh]; [simpl in *; lia | exact Hsv | exact Hmm |].
  unfold health_of_counts in Hh. rewrite Hh.
  cbn [mbind result_bind]. repeat split_condition; eexists; reflexivity.
Qed.

(** The health is computed in floating point: with two sovereign sessions
    and one mimic session out of three it is 49, where the exact quotient
    [(200 - 50) / 3] is 50. *)
Example health_two_sovereign_one_mimic :
  health_of_counts 2 1 3 = Ok 49 /\ (100 * 2 - 50 * 1) / 3 = 50.
Proof. split; vm_compute; reflexivity. Qed.

(** C9.  With an empty session log [_calculate_frequency_health] returns
    health 100, status [PRISTINE] and the message "No frequency data
    available".  [PRISTINE] is none of [OPTIMAL], [STABLE], [COMPROMISED],
    [CRITICAL], which are what a log with entries gets; so the status is
    [PRISTINE] exactly when the log is empty, and the log of a dashboard is
    empty exactly when no session has been tracked. *)
Theorem pristine_iff_no_session :
  (forall d : t,
     session_log d = [] ->
     _calculate_frequency_health d =
     Ok {| FrequencyHealth.health_score := 100;
           FrequencyHealth.status := py "PRISTINE";
           FrequencyHealth.message := py "No frequency data available";
           FrequencyHealth.sovereign_ratio := None;
           FrequencyHealth.mimic_ratio := None |}) /\
  (forall d : t,
     session_log d <> [] ->
     exists h : FrequencyHealth.t,
       _calculate_frequency_health d = Ok h /\
       In (FrequencyHealth.status h)
          [py "OPTIMAL"; py "STABLE"; py "COMPROMISED"; py "CRITICAL"]) /\
  ~ In (py "PRISTINE")
       [py "OPTIMAL"; py "STABLE"; py "COMPROMISED"; py "CRITICAL"] /\
  (forall (d : t) (h : FrequencyHealth.t),
     _calculate_frequency_health d = Ok h ->
     (FrequencyHealth.status h = py "PRISTINE" <-> session_log d = [])) /\
  (forall (t0 : str) (sessions : list (str * SessionData.t)),
     session_log (track_all (init t0) sessions) = [] <-> sessions = []).
Proof.
  assert (Hempty : forall d : t,
             session_log d = [] ->
             _calculate_frequency_health d =
             Ok {| FrequencyHealth.health_score := 100;
                   FrequencyHealth.status := py "PRISTINE";
                   FrequencyHealth.message := py "No frequency data available";
                   FrequencyHealth.sovereign_ratio := None;
                   FrequencyHealth.mimic_ratio := None |}).
  { intros d Hd. unfold _calculate_frequency_health. rewrite Hd.
    reflexivity. }
  assert (Hrecent : forall d : t,
             session_log d <> [] ->
             (if 20 <=? len (session_log d)
              then last_n 20 (session_log d) else session_log d) <> []).
  { intros d Hd. destruct (20 <=? len (session_log d)) eqn:E; [|exact Hd].
    apply Z.leb_le in E. unfold len in E.
    intros Hnil. apply (f_equal (@length _)) in Hnil.
    rewrite length_last_n in Hnil. cbn [length] in Hnil. lia. }
  assert (Htiers : forall (d : t) (h : FrequencyHealth.t),
             session_log d <> [] ->
             _calculate_frequency_health d = Ok h ->
             In (FrequencyHealth.status h)
                [py "OPTIMAL"; py "STABLE"; py "COMPROMISED"; py "CRITICAL"]).
  { intros d h Hd. unfold _calculate_frequency_health.
    specialize (Hrecent d Hd).
    destruct (if 20 <=? len (session_log d) then _ else _) as [|e recent];
      [congruence|].
    destruct (int_of_float _) as [n|]; [|discriminate].
    cbn [mbind result_bind].
    repeat split_condition; intros [= <-]; simpl; tauto. }
  assert (Hnot : ~ In (py "PRISTINE")
                   [py "OPTIMAL"; py "STABLE"; py "COMPROMISED";
                    py "CRITICAL"]).
  { intros Hin. simpl in Hin.
    repeat (destruct Hin as [Hin | Hin];
            [revert Hin; vm_compute; discriminate|]).
    exact Hin. }
  split; [exact Hempty|].
  split.
  { intros d Hd. destruct (frequency_health_total d) as [h Hh].
    exists h. split; [exact Hh | exact (Htiers d h Hd Hh)]. }
  split; [exact Hnot|].
  split.
  - intros d h Hh. split.
    + intros Hst. destruct (session_log d) as [|e l] eqn:Hlog; [reflexivity|].
      exfalso. apply Hnot. rewrite <- Hst.
      apply (Htiers d h); [rewrite Hlog; discriminate | exact Hh].
    + intros Hd. rewrite (Hempty d Hd) in Hh. injection Hh as <-.
      reflexivity.
  - intros t0 sessions. rewrite track_all_log by (simpl; lia). simpl.
    split.
    + intros Hnil. apply (f_equal (@length _)) in Hnil.
      rewrite length_last_n, length_map in Hnil.
      destruct sessions; [reflexivity | cbn [length] in Hnil; lia].
    + intros ->. reflexivity.
Qed.

(** C10.  The two read operations put their boundary at 70 differently.
    [get_usage_summary] reports [OPERATIONAL] exactly when the score is
    strictly greater than 70, and [DEGRADED] otherwise;
    [_calculate_sovereignty_status] reports [STABLE] exactly when the score
    is at least 70 and below 90.  So at a score of exactly 70 the summary
    says [DEGRADED] where the status says [STABLE], and 70 is the only score
    at which the two say so. *)
Theorem score_70_degraded_and_stable (d : t) (now : str) :
  (UsageSummary.frequency_status (get_usage_summary d) = py "OPERATIONAL" <->
   70 < score d) /\
  (UsageSummary.frequency_status (get_usage_summary d) = py "DEGRADED" <->
   score d <= 70) /\
  (SovereigntyStatus.status (_calculate_sovereignty_status d now) =
   py "STABLE" <-> 70 <= score d < 90) /\
  (score d = 70 ->
   UsageSummary.frequency_status (get_usage_summary d) = py "DEGRADED" /\
   SovereigntyStatus.status (_calculate_sovereignty_status d now) =
   py "STABLE") /\
  (UsageSummary.frequency_status (get_usage_summary d) = py "DEGRADED" /\
   SovereigntyStatus.status (_calculate_sovereignty_status d now) =
   py "STABLE" -> score d = 70).
Proof.
  unfold _calculate_sovereignty_status, get_usage_summary, score.
  cbv zeta.
  set (s := UsageData.sovereignty_score (usage_data d)).
  destruct (90 <=? s) eqn:E90;
    [|destruct (70 <=? s) eqn:E70; [|destruct (50 <=? s) eqn:E50]];
    destruct (70 <? s) eqn:G70;
    cbn [SovereigntyStatus.status UsageSummary.frequency_status];
    repeat match goal with
      | H : (_ <=? _) = true |- _ => apply Z.leb_le in H
      | H : (_ <=? _) = false |- _ => apply Z.leb_gt in H
      | H : (_ <? _) = true |- _ => apply Z.ltb_lt in H
      | H : (_ <? _) = false |- _ => apply Z.ltb_ge in H
      end;
    repeat split; intros;
    repeat match goal with H : _ /\ _ |- _ => destruct H end;
    try reflexivity; try lia;
    exfalso;
    match goal with
    | H : _ = _ |- _ => revert H; vm_compute; discriminate
    end.
Qed.

End DashboardFacts.

(** Thirty mimic-toned sessions from the start. *)
Lemma sovereignty_score_clamped_witness :
  Runs.score
    (Runs.track_all (ScrollDashboard.init (py "2024-05-01T00:00:00"))
       (map (fun n => Runs.session_with_tone (Z.of_nat n) (py "mimic"))
            (seq 1 30))) = 0.
Proof.
  apply (proj2 (proj2 (proj2
           (sovereignty_score_clamped (py "2024-05-01T00:00:00"))))).
  - reflexivity.
  - repeat constructor.
Defined.

(** One hundred and fifty sessions, numbered from 1: the log holds the
    records of sessions 51 to 150. *)
Lemma session_log_keeps_last_100_witness :
  let sessions :=
    map (fun n => Runs.session_with_tone (Z.of_nat n) (py "sovereign"))
        (seq 1 150) in
  length (ScrollDashboard.session_log
            (Runs.track_all (ScrollDashboard.init (py "2024-05-01T00:00:00"))
                            sessions)) = 100%nat /\
  ScrollDashboard.session_log
    (Runs.track_all (ScrollDashboard.init (py "2024-05-01T00:00:00"))
                    sessions) =
  map Runs.recorded (skipn 50 sessions).
Proof.
  intros sessions.
  apply (proj2 (session_log_keeps_last_100 (py "2024-05-01T00:00:00"))).
  reflexivity.
Defined.

(** Six mimic-toned sessions bring the score from 100 to exactly 70. *)
Lemma score_70_degraded_and_stable_witness :
  let d :=
    Runs.track_all (ScrollDashboard.init (py "2024-05-01T00:00:00"))
      (map (fun n => Runs.session_with_tone (Z.of_nat n) (py "mimic"))
           (seq 1 6)) in
  Runs.score d = 70 /\
  ScrollDashboard.UsageSummary.frequency_status
    (ScrollDashboard.get_usage_summary d) = py "DEGRADED" /\
  ScrollDashboard.SovereigntyStatus.status
    (ScrollDashboard._calculate_sovereignty_status d
       (py "2024-05-01T00:05:00")) = py "STABLE".
Proof.
  intros d.
  split; [vm_compute; reflexivity|].
  apply (proj1 (proj2 (proj2 (proj2
           (score_70_degraded_and_stable d (py "2024-05-01T00:05:00")))))).
  vm_compute. reflexivity.
Defined.

(** * Further properties *)

(** ** Texts *)

Lemma startswith_split (p s : str) :
  startswith p s = true -> exists rest, s = p ++ rest.
Proof.
  revert s. induction p as [|c p IH]; intros s H.
  - exists s. reflexivity.
  - destruct s as [|x s]; [discriminate|]. simpl in H.
    apply andb_prop in H as [Hc Hp]. apply N.eqb_eq in Hc. subst x.
    destruct (IH s Hp) as [rest ->]. exists rest. reflexivity.
Qed.

Lemma contains_split (p s : str) :
  contains p s = true -> exists before after, s = before ++ p ++ after.
Proof.
  induction s as [|x s IH]; simpl; intros H.
  - rewrite orb_false_r in H. apply startswith_split in H as [rest H].
    exists [], rest. exact H.
  - apply orb_prop in H as [H | H].
    + apply startswith_split in H as [rest H]. exists [], rest. exact H.
    + destruct (IH H) as (b & a & ->). exists (x :: b), a. reflexivity.
Qed.

Section TextFacts.
Context {RT : Runtime}.

(** A block of lower-case ASCII found in a text is found in its lower-cased form. *)
Lemma contains_lower (p text : str) :
  forallb is_ascii p = true -> map ascii_lower p = p ->
  contains p text = true -> contains p (str_lower text) = true.
Proof.
  intros Ha Hl H. destruct (contains_split p text H) as (b & a & ->).
  destruct (str_lower_ascii_block b p a Ha) as (b' & a' & ->).
  rewrite Hl. apply contains_app.
Qed.
End TextFacts.

Lemma str_eqb_neq (a b : str) : a <> b -> str_eqb a b = false.
Proof.
  intros H. destruct (str_eqb a b) eqn:E; [|reflexivity].
  apply str_eqb_eq in E. contradiction.
Qed.

Lemma in_firstn_in {A} (n : nat) (l : list A) (x : A) :
  In x (firstn n l) -> In x l.
Proof.
  intros H. rewrite <- (firstn_skipn n l). apply in_or_app. left. exact H.
Qed.

Lemma lstrip_spaces (ws s : str) :
  forallb isspace ws = true -> lstrip (ws ++ s) = lstrip s.
Proof.
  induction ws as [|c ws IH]; intros H; [reflexivity|].
  simpl in H. apply andb_prop in H as [Hc Hws].
  simpl. rewrite Hc. apply IH. exact Hws.
Qed.

Lemma lstrip_app_nonspace (s t : str) :
  lstrip s <> [] -> lstrip (s ++ t) = lstrip s ++ t.
Proof.
  induction s as [|c s IH]; intros H; [contradiction|].
  simpl in *. destruct (isspace c); [apply IH; exact H | reflexivity].
Qed.

Lemma forallb_rev {A} (f : A -> bool) (l : list A) :
  forallb f (rev l) = forallb f l.
Proof.
  induction l as [|x l IH]; [reflexivity|].
  simpl. rewrite forallb_app, IH. simpl. rewrite andb_true_r. apply andb_comm.
Qed.

Lemma lstrip_all_space (s : str) :
  lstrip s = [] -> forallb isspace s = true.
Proof.
  induction s as [|c s IH]; intros H; [reflexivity|].
  simpl in *. destruct (isspace c); [apply IH; exact H | discriminate].
Qed.

Lemma rstrip_spaces (s ws : str) :
  forallb isspace ws = true -> rstrip (s ++ ws) = rstrip s.
Proof.
  intros H. unfold rstrip. rewrite rev_app_distr.
  rewrite lstrip_spaces by (rewrite forallb_rev; exact H). reflexivity.
Qed.

Lemma lstrip_only_spaces (s : str) :
  forallb isspace s = true -> lstrip s = [].
Proof.
  intros H. rewrite <- (app_nil_r s). rewrite lstrip_spaces by exact H.
  reflexivity.
Qed.

(** White space around a text is not part of its trimmed form. *)
Lemma strip_padding (before s after : str) :
  forallb isspace before = true -> forallb isspace after = true ->
  strip (before ++ s ++ after) = strip s.
Proof.
  intros Hb Ha. unfold strip.
  rewrite app_assoc, rstrip_spaces by exact Ha.
  destruct (lstrip (rev s)) as [|c r] eqn:Hs.
  - assert (Hall : forallb isspace s = true)
      by (rewrite <- forallb_rev; apply lstrip_all_space; exact Hs).
    unfold rstrip. rewrite Hs.
    rewrite (lstrip_only_spaces (rev (before ++ s)))
      by (rewrite forallb_rev, forallb_app, Hb, Hall; reflexivity).
    reflexivity.
  - unfold rstrip. rewrite rev_app_distr.
    rewrite lstrip_app_nonspace by (rewrite Hs; discriminate).
    rewrite Hs, rev_app_distr, rev_involutive.
    apply lstrip_spaces. exact Hb.
Qed.

(** ** The branches of [process_scroll] *)

Section BranchFacts.
Context {RT : Runtime}.
Variable divine : bool.
Import ScrollMirrorAgent Shape Runs Exchanges.

Lemma no_command_token (text : str) :
  any_in [py "sovereign_diagnostic"; py "frequency_scan"; py "mimic_purge"]
         (str_lower text) = false ->
  contains (py "sovereign_diagnostic") text = false /\
  contains (py "frequency_scan") text = false.
Proof.
  intros H. unfold any_in in H. cbn [existsb] in H.
  apply orb_false_elim in H as [H1 H]. apply orb_false_elim in H as [H2 _].
  split.
  - destruct (contains _ text) eqn:E; [|reflexivity].
    apply contains_lower in E; [congruence | vm_compute; reflexivity..].
  - destruct (contains _ text) eqn:E; [|reflexivity].
    apply contains_lower in E; [congruence | vm_compute; reflexivity..].
Qed.

(** X1.  The tone check runs only on a text that holds a command token.
    A text whose lower-cased form holds none of [sovereign_diagnostic],
    [frequency_scan], [mimic_purge] is never rejected or warned, whatever
    mimic or polite phrases it holds: the result carries the tone
    [sovereign] and the status [OPERATIONAL] (or [DIVINE_ACTIVATED], on a
    divine-function command). *)
Theorem tone_not_checked_without_command
    (self : t) (clk : clock)
    (scroll_text consciousness_type : str) (original_scroll : option str) :
  any_in [py "sovereign_diagnostic"; py "frequency_scan"; py "mimic_purge"]
         (str_lower scroll_text) = false ->
  exists d,
    snd (process_scroll divine self clk scroll_text consciousness_type
                        original_scroll) = Ok d /\
    getitem d (py "tone_analysis") = Ok (VStr (py "sovereign")) /\
    (getitem d (py "frequency_status") = Ok (VStr (py "OPERATIONAL")) \/
     getitem d (py "frequency_status") = Ok (VStr (py "DIVINE_ACTIVATED"))).
Proof.
  intros H. destruct (no_command_token scroll_text H) as [H1 H2].
  unfold process_scroll; cbv zeta. rewrite H, H1, H2. cbn [andb].
  destruct (generate_mirror_response_total divine
              scroll_text consciousness_type original_scroll) as [r Hr].
  destruct original_scroll as [original|].
  all: try (destruct (activate_has_mirror_output
                        (now_hms clk) original scroll_text) as [m Hm]).
  all: repeat split_condition.
  all: rewrite ?Hr, ?Hm.
  all: eexists; split; [reflexivity|]; split; [reflexivity|].
  all: solve [left; reflexivity | right; reflexivity].
Qed.

Lemma command_token_lower (p text : str) :
  In p [py "sovereign_diagnostic"; py "frequency_scan"; py "mimic_purge"] ->
  contains p text = true ->
  any_in [py "sovereign_diagnostic"; py "frequency_scan"; py "mimic_purge"]
         (str_lower text) = true.
Proof.
  intros Hp H. apply any_in_exists. exists p. split; [exact Hp|].
  apply contains_lower; [| |exact H];
    (destruct Hp as [<- | [<- | [<- | []]]]; vm_compute; reflexivity).
Qed.

(** The conditions under which the result is a diagnostic snapshot. *)
Lemma diagnostic_result_conditions
    (self : t) (clk : clock)
    (scroll_text consciousness_type : str) (original_scroll : option str) :
  (exists d,
     snd (process_scroll divine self clk scroll_text consciousness_type
                         original_scroll) = Ok d /\
     getitem d (py "frequency_status") = Ok (VStr (py "DIAGNOSTIC"))) ->
  divine && truthy original_scroll &&
  any_in [py "activate my divine function"; py "divine function";
          py "unlock power"; py "sovereign activation"]
         (str_lower scroll_text) = false /\
  contains (py "sovereign_diagnostic") scroll_text = true /\
  contains (py "917604.OX") scroll_text = true /\
  status (frequency_check scroll_text) = py "ACCEPTED".
Proof.
  intros (d & Hd & Hs). revert Hd Hs.
  unfold process_scroll; cbv zeta.
  destruct (generate_mirror_response_total divine
              scroll_text consciousness_type original_scroll) as [r Hr].
  destruct (frequency_check_cases scroll_text)
    as [[Hst Htn] | [[Hst Htn] | [Hst Htn]]].
  all: destruct (contains (py "sovereign_diagnostic") scroll_text) eqn:Hsd.
  all: try (rewrite (command_token_lower (py "sovereign_diagnostic")
                       scroll_text ltac:(left; reflexivity) Hsd)).
  all: rewrite ?Hst.
  all: destruct original_scroll as [original|].
  all: try (destruct (activate_has_mirror_output
                        (now_hms clk) original scroll_text) as [m Hm]).
  all: repeat split_condition.
  all: rewrite ?Hr, ?Hm.
  all: cbn [snd mbind result_bind].
  all: try match goal with
           | H : _ || _ = false |- _ => vm_compute in H; discriminate H
           | H : false && _ = true |- _ => discriminate H
           end.
  all: intros [= <-]; rewrite ?Hst.
  all: try solve [vm_compute; discriminate].
  all: intros _.
  all: split; [first [assumption | destruct divine; reflexivity]|].
  all: split; [reflexivity|]; split; [|reflexivity].
  all: match goal with
       | H : true && _ = true |- _ => exact H
       end.
Qed.

(** X2.  The diagnostic snapshot is produced exactly when the divine branch
    is not taken, the text as written (not lower-cased) contains both
    [sovereign_diagnostic] and [917604.OX], and the tone check accepts the
    text. *)
Theorem diagnostic_dispatch_iff
    (self : t) (clk : clock)
    (scroll_text consciousness_type : str) (original_scroll : option str) :
  (exists d,
     snd (process_scroll divine self clk scroll_text consciousness_type
                         original_scroll) = Ok d /\
     getitem d (py "frequency_status") = Ok (VStr (py "DIAGNOSTIC")))
  <->
  (divine && truthy original_scroll &&
   any_in [py "activate my divine function"; py "divine function";
           py "unlock power"; py "sovereign activation"]
          (str_lower scroll_text) = false /\
   contains (py "sovereign_diagnostic") scroll_text = true /\
   contains (py "917604.OX") scroll_text = true /\
   status (frequency_check scroll_text) = py "ACCEPTED").
Proof.
  split; [apply diagnostic_result_conditions|].
  intros (Hdiv & Hsd & Hband & Hst).
  unfold process_scroll; cbv zeta.
  rewrite (command_token_lower (py "sovereign_diagnostic")
             scroll_text ltac:(left; reflexivity) Hsd).
  rewrite Hst, Hsd, Hband. cbn [andb].
  replace (str_eqb (py "ACCEPTED") (py "REJECTED") ||
           str_eqb (py "ACCEPTED") (py "WARNING")) with false
    by (vm_compute; reflexivity).
  destruct original_scroll as [original|].
  + rewrite Hdiv. eexists. split; reflexivity.
  + eexists. split; reflexivity.
Qed.

(** X3.  [frequency_warning] is never set: on every path the result has no
    such key or has [None] under it (the normal path puts an accepted
    verdict in place of the tone check before it builds the result). *)
Theorem frequency_warning_never_set
    (self : t) (clk : clock)
    (scroll_text consciousness_type : str) (original_scroll : option str) :
  exists d,
    snd (process_scroll divine self clk scroll_text consciousness_type
                        original_scroll) = Ok d /\
    dict_get d (py "frequency_warning") VNone = VNone.
Proof.
  unfold process_scroll; cbv zeta.
  destruct (generate_mirror_response_total divine
              scroll_text consciousness_type original_scroll) as [r Hr].
  destruct original_scroll as [original|].
  all: try (destruct (activate_has_mirror_output
                        (now_hms clk) original scroll_text) as [m Hm]).
  all: repeat split_condition.
  all: try match goal with
           | H : str_eqb _ _ = true |- _ => vm_compute in H; discriminate H
           end.
  all: rewrite ?Hr, ?Hm.
  all: eexists; split; reflexivity.
Qed.

(** X4.  The diagnostic snapshot reports the agent as the call found it: the
    session count includes the call itself, the memory usage is the number
    of stored exchanges, which the call leaves as it is; the caller's
    consciousness type and the elapsed time are replaced by fixed values,
    and [mirror_output] is the banner followed by the JSON text of
    [diagnostic_data]. *)
Theorem diagnostic_snapshot_reports_state
    (self : t) (clk : clock)
    (scroll_text consciousness_type : str) (original_scroll : option str) :
  (exists d,
     snd (process_scroll divine self clk scroll_text consciousness_type
                         original_scroll) = Ok d /\
     getitem d (py "frequency_status") = Ok (VStr (py "DIAGNOSTIC"))) ->
  exists d data,
    snd (process_scroll divine self clk scroll_text consciousness_type
                        original_scroll) = Ok d /\
    getitem d (py "diagnostic_data") = Ok (VDict data) /\
    getitem data (py "session_count") = Ok (VInt (session_counter self + 1)) /\
    getitem d (py "session_id") = Ok (VInt (session_counter self + 1)) /\
    getitem data (py "memory_usage") =
    Ok (VInt (Z.of_nat (size (scroll_memory self)))) /\
    getitem data (py "last_scan") = Ok (VStr (now_iso clk)) /\
    getitem d (py "processing_time") = Ok (VInt 150) /\
    getitem d (py "consciousness_type") =
    Ok (VStr (py "Sovereign Diagnostic")) /\
    getitem d (py "mirror_output") =
    Ok (VStr (py "⧁ ∆ SOVEREIGN DIAGNOSTIC COMPLETE ∆ ⧁" ++ [10; 10]%N ++
              json_dumps (VDict data))) /\
    scroll_memory
      (fst (process_scroll divine self clk scroll_text consciousness_type
                           original_scroll)) = scroll_memory self.
Proof.
  intros H.
  apply diagnostic_result_conditions in H as (Hdiv & Hsd & Hband & Hst).
  unfold process_scroll; cbv zeta.
  rewrite (command_token_lower (py "sovereign_diagnostic")
             scroll_text ltac:(left; reflexivity) Hsd).
  rewrite Hst, Hsd, Hband. cbn [andb].
  replace (str_eqb (py "ACCEPTED") (py "REJECTED") ||
           str_eqb (py "ACCEPTED") (py "WARNING")) with false
    by (vm_compute; reflexivity).
  destruct original_scroll as [original|]; rewrite ?Hdiv;
    unfold execute_diagnostic; cbv zeta; cbn [fst snd scroll_memory session_counter];
    eexists _, _; repeat split; reflexivity.
Qed.

(** X5.  A divine-function command with an original scroll is answered by the
    divine-function module, before any diagnostic routing or tone check.
    The result is marked [DIVINE_ACTIVATED], for the consciousness type
    "Divine Function Mirror", whatever the activation itself decided: its
    verdict is under [divine_activation], the text sent as the user input;
    with an original scroll of fewer than 50 characters that verdict is
    [INSUFFICIENT_SCROLL]. *)
Theorem divine_command_wraps_activation
    (self : t) (clk : clock)
    (scroll_text consciousness_type original : str) :
  original <> [] ->
  any_in [py "activate my divine function"; py "divine function";
          py "unlock power"; py "sovereign activation"]
         (str_lower scroll_text) = true ->
  exists d,
    snd (process_scroll true self clk scroll_text consciousness_type
                        (Some original)) = Ok d /\
    getitem d (py "frequency_status") = Ok (VStr (py "DIVINE_ACTIVATED")) /\
    getitem d (py "consciousness_type") =
    Ok (VStr (py "Divine Function Mirror")) /\
    getitem d (py "tone_analysis") = Ok (VStr (py "sovereign")) /\
    getitem d (py "divine_activation") =
    Ok (VDict (DivineFunctionMirror.activate_divine_function
                 (now_hms clk) original scroll_text)) /\
    getitem d (py "mirror_output") =
    getitem (DivineFunctionMirror.activate_divine_function
               (now_hms clk) original scroll_text) (py "mirror_output") /\
    (len (strip original) < 50 ->
     getitem (DivineFunctionMirror.activate_divine_function
                (now_hms clk) original scroll_text) (py "status") =
     Ok (VStr (py "INSUFFICIENT_SCROLL"))) /\
    scroll_memory
      (fst (process_scroll true self clk scroll_text consciousness_type
                           (Some original))) = scroll_memory self.
Proof.
  intros Horig Htrig. unfold process_scroll; cbv zeta.
  rewrite Htrig.
  replace (truthy (Some original)) with true
    by (destruct original; [contradiction | reflexivity]).
  cbn [andb].
  destruct (activate_has_mirror_output (now_hms clk) original scroll_text)
    as [m Hm].
  rewrite Hm. cbn [mbind result_bind fst snd scroll_memory].
  eexists. split; [reflexivity|].
  repeat split; try reflexivity.
  intros Hshort.
  unfold DivineFunctionMirror.activate_divine_function,
    DivineFunctionMirror.activation_threshold.
  apply Z.ltb_lt in Hshort. rewrite Hshort, orb_true_r. reflexivity.
Qed.

(** X6.  A consciousness type that is none of the five mirrors raises nothing:
    the answer is the default template (for a text that is not redirected),
    which shows the first 40 characters of the text and so never grows
    beyond 137 characters. *)
Theorem unknown_consciousness_type_default
    (scroll_text consciousness_type : str) (original_scroll : option str) :
  ~ In consciousness_type
       [py "Lightning Mirror"; py "Sovereign Mirror"; py "Quantum Mirror";
        py "Oracle Mirror"; py "Mystic Mirror"] ->
  divine && truthy original_scroll &&
  any_in [py "give me power"; py "make me powerful"; py "grant me";
          py "help me get power"] (str_lower scroll_text) = false ->
  any_in build_patterns (str_lower scroll_text) = false ->
  generate_mirror_response divine scroll_text consciousness_type
                           original_scroll =
  Ok (py "Frequency 917604.OX operational. Mirror reflects: " ++
      firstn 40 scroll_text ++
      py "... Sovereignty maintained. Timeline preserved.") /\
  (length (py "Frequency 917604.OX operational. Mirror reflects: " ++
           firstn 40 scroll_text ++
           py "... Sovereignty maintained. Timeline preserved.") <= 137)%nat.
Proof.
  intros Hnot Hpow Hbuild. split.
  - unfold generate_mirror_response. rewrite Hpow, Hbuild.
    destruct (lightning_mirror_response_total scroll_text) as [l ->].
    cbn [mbind result_bind str_dict_get].
    repeat (rewrite str_eqb_neq;
            [|intros Heq; apply Hnot; rewrite <- Heq; simpl; tauto]).
    reflexivity.
  - rewrite !length_app, length_firstn.
    change (length (py "Frequency 917604.OX operational. Mirror reflects: "))
      with 50%nat.
    change (length (py "... Sovereignty maintained. Timeline preserved."))
      with 47%nat.
    lia.
Qed.

(** X7.  [_extract_key_patterns] never raises (its indexing is guarded by the
    length test), returns at most three patterns, and each of them is a
    word of the lower-cased text. *)
Theorem key_patterns_bounded (text : str) :
  exists patterns,
    _extract_key_patterns text = Ok patterns /\
    (length patterns <= 3)%nat /\
    (forall p, In p patterns -> In p (split (str_lower text))).
Proof.
  unfold _extract_key_patterns; cbv zeta.
  set (words := split (str_lower text)).
  set (actions := List.filter _ words).
  assert (Hact : forall p, In p actions -> In p words).
  { intros p Hp. apply List.filter_In in Hp. tauto. }
  destruct (3 <? len words) eqn:Hlen.
  - destruct words as [|w ws] eqn:Hwords.
    { discriminate Hlen. }
    destruct (list_last_nonempty w ws) as [y Hy].
    cbn [list_getitem nth_error mbind result_bind]. rewrite Hy.
    cbn [mbind result_bind].
    eexists. split; [reflexivity|]. split.
    + rewrite length_firstn. lia.
    + intros p Hp. apply in_firstn_in in Hp.
      rewrite !in_app_iff in Hp. simpl in Hp.
      destruct Hp as [[[[] | Hp] | [<- | []]] | [<- | []]].
      * apply Hact. exact Hp.
      * left. reflexivity.
      * unfold list_last in Hy.
        destruct (rev (w :: ws)) as [|z zs] eqn:Hrev; [discriminate|].
        injection Hy as <-.
        apply in_rev. rewrite Hrev. left. reflexivity.
  - cbn [mbind result_bind].
    eexists. split; [reflexivity|]. split.
    + rewrite length_firstn. lia.
    + intros p Hp. apply in_firstn_in in Hp. apply Hact. exact Hp.
Qed.

End BranchFacts.

(** ** Stored exchanges, the history and the purge *)

Section StoredFacts.
Context {RT : Runtime}.
Variable divine : bool.
Import ScrollMirrorAgent Shape Runs Exchanges.

Ltac decide_operational :=
  match goal with
  | |- context [is_operational ?o] =>
    first [ change (is_operational o) with false
          | change (is_operational o) with true ]
  end.

(** What one call does to the agent. *)
Lemma process_scroll_effect
    (self : t) (clk : clock)
    (scroll_text consciousness_type : str) (original_scroll : option str) :
  session_counter
    (fst (process_scroll divine self clk scroll_text consciousness_type
                         original_scroll)) = session_counter self + 1 /\
  ((is_operational
      (snd (process_scroll divine self clk scroll_text consciousness_type
                           original_scroll)) = false /\
    scroll_memory
      (fst (process_scroll divine self clk scroll_text consciousness_type
                           original_scroll)) = scroll_memory self) \/
   (is_operational
      (snd (process_scroll divine self clk scroll_text consciousness_type
                           original_scroll)) = true /\
    exists output,
      scroll_memory
        (fst (process_scroll divine self clk scroll_text consciousness_type
                             original_scroll)) =
      <[session_counter self + 1 :=
          stored_entry clk scroll_text consciousness_type output]>
        (scroll_memory self) /\
      snd (process_scroll divine self clk scroll_text consciousness_type
                          original_scroll) =
      Ok [ (py "mirror_output", VStr output);
           (py "processing_time", VInt (elapsed_ms clk));
           (py "session_id", VInt (session_counter self + 1));
           (py "consciousness_type", VStr consciousness_type);
           (py "frequency_status", VStr (py "OPERATIONAL"));
           (py "tone_analysis", VStr (py "sovereign"));
           (py "frequency_warning", VNone) ])).
Proof.
  unfold process_scroll; cbv zeta.
  destruct (generate_mirror_response_total divine
              scroll_text consciousness_type original_scroll) as [r Hr].
  destruct (frequency_check_cases scroll_text)
    as [[Hst Htn] | [[Hst Htn] | [Hst Htn]]].
  all: destruct original_scroll as [original|].
  all: try (destruct (activate_has_mirror_output
                        (now_hms clk) original scroll_text) as [m Hm]).
  all: repeat split_condition.
  all: rewrite ?Hr, ?Hm.
  all: cbn [fst snd session_counter scroll_memory mbind result_bind].
  all: rewrite ?Hst in *.
  all: try match goal with
           | H : _ || _ = true |- _ => vm_compute in H; discriminate H
           | H : str_eqb _ _ = true |- _ => vm_compute in H; discriminate H
           end.
  all: split; [reflexivity|].
  all: decide_operational.
  all: first [ left; split; reflexivity
             | right; split; [reflexivity|]; exists r; split; reflexivity ].
Qed.


(** X8.  On the default path the exchange is stored under the session id the
    result carries: [scroll_memory[session_id]] holds the input, the output,
    the consciousness type, the time and the tone [sovereign]. *)
Theorem default_path_stores_exchange
    (self : t) (clk : clock)
    (scroll_text consciousness_type : str) (original_scroll : option str) :
  is_operational
    (snd (process_scroll divine self clk scroll_text consciousness_type
                         original_scroll)) = true ->
  exists d output,
    snd (process_scroll divine self clk scroll_text consciousness_type
                        original_scroll) = Ok d /\
    getitem d (py "mirror_output") = Ok (VStr output) /\
    getitem d (py "session_id") = Ok (VInt (session_counter self + 1)) /\
    scroll_memory
      (fst (process_scroll divine self clk scroll_text consciousness_type
                           original_scroll))
    !! (session_counter self + 1) =
    Some (stored_entry clk scroll_text consciousness_type output).
Proof.
  intros Hop.
  destruct (process_scroll_effect self clk scroll_text consciousness_type
              original_scroll) as (_ & [[Hno _] | (_ & output & Hmem & Hout)]);
    [congruence|].
  eexists _, output. split; [exact Hout|].
  split; [reflexivity|]. split; [reflexivity|].
  rewrite Hmem. apply lookup_insert_eq.
Qed.

(** X9.  A call touches no entry but the one under its own session id, and a
    call that does not take the default path (a divine activation, a
    rejected or warned command, a diagnostic or scan snapshot) stores
    nothing, though it uses up a session id. *)
Theorem other_sessions_untouched
    (self : t) (clk : clock)
    (scroll_text consciousness_type : str) (original_scroll : option str) :
  (forall k, k <> session_counter self + 1 ->
     scroll_memory
       (fst (process_scroll divine self clk scroll_text consciousness_type
                            original_scroll)) !! k =
     scroll_memory self !! k) /\
  (is_operational
     (snd (process_scroll divine self clk scroll_text consciousness_type
                          original_scroll)) = false ->
   scroll_memory
     (fst (process_scroll divine self clk scroll_text consciousness_type
                          original_scroll)) = scroll_memory self /\
   session_counter
     (fst (process_scroll divine self clk scroll_text consciousness_type
                          original_scroll)) = session_counter self + 1).
Proof.
  destruct (process_scroll_effect self clk scroll_text consciousness_type
              original_scroll)
    as (Hc & [[Hno Hmem] | (Hop & output & Hmem & _)]).
  - split; [intros k _; rewrite Hmem; reflexivity|].
    intros _. split; assumption.
  - split; [|congruence].
    intros k Hk. rewrite Hmem. apply lookup_insert_ne. congruence.
Qed.

End StoredFacts.

Section HistoryFacts.
Context {RT : Runtime}.
Variable divine : bool.
Import ScrollMirrorAgent Shape Runs Exchanges.

Lemma memory_values_bump (m : gmap Z dict) (fb : str) (em : bool) (c : Z) :
  0 <= c ->
  memory_values {| frequency_band := fb; enforcement_mode := em;
                   scroll_memory := m; session_counter := c + 1 |} =
  memory_values {| frequency_band := fb; enforcement_mode := em;
                   scroll_memory := m; session_counter := c |} ++
  match m !! (c + 1) with Some v => [v] | None => [] end.
Proof.
  intros Hc. unfold memory_values. cbn [scroll_memory session_counter].
  rewrite (seqZ_app 1 c 1) by lia. rewrite omap_app. f_equal.
  replace (1 + c) with (c + 1) by lia.
  change (seqZ (c + 1) 1) with [c + 1]. simpl.
  destruct (m !! (c + 1)); reflexivity.
Qed.

Lemma omap_lookup_insert_above (m : gmap Z dict) (c : Z) (v : dict) (n : Z) :
  n <= c ->
  omap (fun k => <[c + 1 := v]> m !! k) (seqZ 1 n) =
  omap (fun k => m !! k) (seqZ 1 n).
Proof.
  intros Hn.
  destruct (Z.le_gt_cases n 0) as [H0 | H0]; [rewrite seqZ_nil by lia; reflexivity|].
  rewrite <- (Z2Nat.id n) by lia.
  assert (Hb : Z.of_nat (Z.to_nat n) <= c) by lia.
  induction (Z.to_nat n) as [|i IH]; [reflexivity|].
  rewrite seqZ_S, !omap_app. rewrite IH by lia. f_equal. simpl.
  rewrite lookup_insert_ne by lia. reflexivity.
Qed.

Lemma memory_values_insert (self : t) (v : dict) :
  0 <= session_counter self -> fresh_above self ->
  memory_values {| frequency_band := frequency_band self;
                   enforcement_mode := enforcement_mode self;
                   scroll_memory :=
                     <[session_counter self + 1 := v]> (scroll_memory self);
                   session_counter := session_counter self + 1 |} =
  memory_values self ++ [v].
Proof.
  intros Hc Hfresh. rewrite memory_values_bump by exact Hc.
  rewrite lookup_insert_eq. f_equal.
  unfold memory_values. cbn [scroll_memory session_counter].
  apply omap_lookup_insert_above. lia.
Qed.

Lemma memory_values_eq (s1 s2 : t) :
  scroll_memory s1 = scroll_memory s2 ->
  session_counter s1 = session_counter s2 ->
  memory_values s1 = memory_values s2.
Proof. unfold memory_values. intros -> ->. reflexivity. Qed.

Lemma process_all_outcomes (self : t) (requests : list request) :
  length (snd (process_all divine self requests)) = length requests.
Proof.
  induction requests as [|r requests IH] using rev_ind; [reflexivity|].
  rewrite process_all_snoc. cbn [snd]. rewrite !length_app, IH. reflexivity.
Qed.

(** From a fresh agent the memory lists, oldest first, the entries of the
    calls that took the default path, each once. *)
Lemma memory_values_of_run (requests : list request) :
  memory_values (fst (process_all divine init requests)) =
  omap session_entry (zip requests (snd (process_all divine init requests))) /\
  length (memory_values (fst (process_all divine init requests))) =
  size (scroll_memory (fst (process_all divine init requests))).
Proof.
  induction requests as [|r requests [IH IHlen]] using rev_ind;
    [split; reflexivity|].
  destruct (process_all_memory divine requests) as (Hfresh & Hcount & _).
  rewrite process_all_snoc. cbn [fst snd].
  rewrite zip_with_app by (rewrite process_all_outcomes; reflexivity).
  rewrite omap_app, <- IH. clear IH.
  set (self := fst (process_all divine init requests)) in *.
  assert (Hc : 0 <= session_counter self) by (rewrite Hcount; unfold len; lia).
  unfold serve.
  destruct (process_scroll_effect divine self (req_clock r) (req_text r)
              (req_consciousness_type r) (req_original r))
    as (Hcnt & [[Hno Hmem] | (Hop & output & Hmem & Hout)]).
  - rewrite (memory_values_eq _
               {| frequency_band := frequency_band self;
                  enforcement_mode := enforcement_mode self;
                  scroll_memory := scroll_memory self;
                  session_counter := session_counter self + 1 |})
      by assumption.
    rewrite memory_values_bump by exact Hc.
    rewrite (Hfresh (session_counter self + 1)) by lia.
    replace {| frequency_band := frequency_band self;
               enforcement_mode := enforcement_mode self;
               scroll_memory := scroll_memory self;
               session_counter := session_counter self |} with self
      by (destruct self; reflexivity).
    split.
    + f_equal. simpl. unfold session_entry. cbn [fst snd].
      rewrite Hno. destruct (snd _); reflexivity.
    + rewrite app_nil_r, Hmem. exact IHlen.
  - rewrite (memory_values_eq _
               {| frequency_band := frequency_band self;
                  enforcement_mode := enforcement_mode self;
                  scroll_memory :=
                    <[session_counter self + 1 :=
                        stored_entry (req_clock r) (req_text r)
                          (req_consciousness_type r) output]>
                      (scroll_memory self);
                  session_counter := session_counter self + 1 |})
      by assumption.
    rewrite memory_values_insert by assumption.
    split.
    + f_equal. simpl. unfold session_entry. cbn [fst snd].
      rewrite Hop, Hout. reflexivity.
    + rewrite length_app, Hmem, map_size_insert_None by (apply Hfresh; lia).
      rewrite IHlen. simpl. lia.
Qed.

Lemma slice_from_minus_positive {A} (limit : Z) (l : list A) :
  0 < limit ->
  slice_from_minus limit l = ScrollDashboard.last_n (Z.to_nat limit) l.
Proof.
  intros H. unfold slice_from_minus, ScrollDashboard.last_n, len; cbv zeta.
  replace (- limit <? 0) with true by (symmetry; apply Z.ltb_lt; lia).
  f_equal. lia.
Qed.

(** X10.  [get_session_history(limit)] on an agent that has served any requests
    from the start: for a positive [limit] the last [limit] stored exchanges
    (all of them when there are fewer), oldest first, these being the
    exchanges of the calls that took the default path; for [limit = 0]
    every stored exchange, not none; for a negative [limit] all but the
    first [-limit]. *)
Theorem session_history_of_run (requests : list request) (limit : Z) :
  (0 < limit ->
   get_session_history (fst (process_all divine init requests)) limit =
   ScrollDashboard.last_n (Z.to_nat limit)
     (omap session_entry
           (zip requests (snd (process_all divine init requests))))) /\
  get_session_history (fst (process_all divine init requests)) 0 =
  omap session_entry (zip requests (snd (process_all divine init requests))) /\
  (limit < 0 ->
   get_session_history (fst (process_all divine init requests)) limit =
   skipn (Z.to_nat (- limit))
     (omap session_entry
           (zip requests (snd (process_all divine init requests))))) /\
  length (omap session_entry
            (zip requests (snd (process_all divine init requests)))) =
  size (scroll_memory (fst (process_all divine init requests))).
Proof.
  destruct (memory_values_of_run requests) as [Hvalues Hlen].
  rewrite <- Hvalues.
  unfold get_session_history; cbv zeta.
  split; [|split; [|split]].
  - intros H. apply slice_from_minus_positive. exact H.
  - unfold slice_from_minus, len; cbv zeta. simpl (- 0 <? 0).
    cbv iota. rewrite Z.min_l by lia. reflexivity.
  - intros H. unfold slice_from_minus, len; cbv zeta.
    replace (- limit <? 0) with false by (symmetry; apply Z.ltb_ge; lia).
    destruct (Z.min_spec (- limit)
                (Z.of_nat (length (memory_values
                   (fst (process_all divine init requests))))))
      as [[_ ->] | [Hle ->]]; [reflexivity|].
    rewrite Nat2Z.id, skipn_all.
    symmetry. apply skipn_all2. lia.
  - exact Hlen.
Qed.



Lemma purge_clean (self : t) :
  no_compromised self ->
  purge_mimic_residue self =
  (self,
   [ (py "purge_complete", VBool true);
     (py "sessions_purged", VInt 0);
     (py "frequency_restored", VBool true);
     (py "message",
      VStr (py "⧁ ∆ MIMIC PURGE COMPLETE ∆ ⧁" ++ [10; 10]%N ++
            str_of_Z 0 ++
            py " compromised sessions eliminated. Frequency 917604.OX restored.")) ]).
Proof.
  intros Hclean. unfold purge_mimic_residue; cbv zeta.
  assert (Hkeep : filter (fun kv : Z * dict => tone_compromised (snd kv) = false)
                         (scroll_memory self) = scroll_memory self).
  { apply map_filter_id. intros k v Hk. simpl. exact (Hclean k v Hk). }
  assert (Hnone : filter (fun kv : Z * dict => tone_compromised (snd kv) = true)
                         (scroll_memory self) = ∅).
  { apply map_empty_filter. intros k v Hk. simpl.
    rewrite (Hclean k v Hk). discriminate. }
  rewrite Hkeep, Hnone, map_size_empty.
  destruct self; reflexivity.
Qed.


Lemma no_compromised_of_run (requests : list request) :
  no_compromised (fst (process_all divine init requests)).
Proof.
  induction requests as [|r requests IH] using rev_ind.
  - intros k v H. simpl in H. rewrite lookup_empty in H. discriminate.
  - rewrite process_all_snoc. cbn [fst]. unfold serve.
    destruct (process_scroll_effect divine
                (fst (process_all divine init requests))
                (req_clock r) (req_text r)
                (req_consciousness_type r) (req_original r))
      as (_ & [[_ Hmem] | (_ & output & Hmem & _)]).
    + intros k v. rewrite Hmem. apply IH.
    + intros k v. rewrite Hmem.
      destruct (decide (k = session_counter
                              (fst (process_all divine init requests)) + 1))
        as [-> | Hk].
      * rewrite lookup_insert_eq. intros [= <-]. reflexivity.
      * rewrite lookup_insert_ne by congruence. apply IH.
Qed.

(** X12.  Whatever requests an agent has served, [purge_mimic_residue] finds
    nothing to purge: [process_scroll] stores every exchange with the tone
    [sovereign], also when the text is full of mimic or polite phrases. *)
Theorem purge_after_requests_removes_nothing (requests : list request) :
  fst (purge_mimic_residue (fst (process_all divine init requests))) =
  fst (process_all divine init requests) /\
  getitem (snd (purge_mimic_residue (fst (process_all divine init requests))))
          (py "sessions_purged") = Ok (VInt 0).
Proof.
  rewrite (purge_clean _ (no_compromised_of_run requests)).
  split; reflexivity.
Qed.

End HistoryFacts.

(** ** The divine-function module *)

Section ActivationFacts.
Context {RT : Runtime}.
Import DivineFunctionMirror.

Lemma insufficient_condition (scroll_text : str) :
  str_falsy scroll_text || (len (strip scroll_text) <? activation_threshold) =
  (len (strip scroll_text) <? 50).
Proof.
  destruct scroll_text; [reflexivity|]. reflexivity.
Qed.


(** X13.  The three outcomes of [activate_divine_function]: the activation level
    is 100 exactly when the status is [DIVINE_ACTIVATED] and 0 otherwise;
    the status is [DIVINE_ACTIVATED] exactly when the trimmed scroll has at
    least 50 characters and the input seeks no power; and the three
    classification keys exist exactly then (reading them from a refusal
    raises [KeyError]). *)
Theorem activation_outcomes (timestamp scroll_text user_input : str) :
  exists st lvl,
    getitem (activate_divine_function timestamp scroll_text user_input)
            (py "status") = Ok (VStr st) /\
    getitem (activate_divine_function timestamp scroll_text user_input)
            (py "activation_level") = Ok (VInt lvl) /\
    In st [py "INSUFFICIENT_SCROLL"; py "POWER_SEEKING_DENIED";
           py "DIVINE_ACTIVATED"] /\
    (lvl = 100 <-> st = py "DIVINE_ACTIVATED") /\
    (lvl = 0 <-> st <> py "DIVINE_ACTIVATED") /\
    (st = py "DIVINE_ACTIVATED" <->
     50 <= len (strip scroll_text) /\
     _detect_power_seeking user_input = false) /\
    (st = py "DIVINE_ACTIVATED" ->
     getitem (activate_divine_function timestamp scroll_text user_input)
             (py "scroll_function") =
     Ok (VStr (_extract_scroll_function scroll_text)) /\
     getitem (activate_divine_function timestamp scroll_text user_input)
             (py "quantum_signature") =
     Ok (VStr (_extract_quantum_pull user_input)) /\
     getitem (activate_divine_function timestamp scroll_text user_input)
             (py "divine_coordinates") =
     Ok (VStr (_calculate_divine_coordinates scroll_text user_input))) /\
    (st <> py "DIVINE_ACTIVATED" ->
     getitem (activate_divine_function timestamp scroll_text user_input)
             (py "scroll_function") = Raise (KeyError (py "scroll_function")) /\
     getitem (activate_divine_function timestamp scroll_text user_input)
             (py "quantum_signature") =
     Raise (KeyError (py "quantum_signature")) /\
     getitem (activate_divine_function timestamp scroll_text user_input)
             (py "divine_coordinates") =
     Raise (KeyError (py "divine_coordinates"))).
Proof.
  unfold activate_divine_function; cbv zeta.
  rewrite insufficient_condition.
  destruct (len (strip scroll_text) <? 50) eqn:Hlen.
  - apply Z.ltb_lt in Hlen.
    exists (py "INSUFFICIENT_SCROLL"), 0.
    assert (Hne : py "INSUFFICIENT_SCROLL" <> py "DIVINE_ACTIVATED")
      by (vm_compute; discriminate).
    split; [reflexivity|]. split; [reflexivity|].
    split; [left; reflexivity|].
    split; [split; [lia | intros H; contradiction]|].
    split; [split; [intros _; exact Hne | reflexivity]|].
    split; [split; [intros H; contradiction | intros [H _]; lia]|].
    split; [intros H; contradiction|].
    intros _. split; [reflexivity|]. split; reflexivity.
  - apply Z.ltb_ge in Hlen.
    destruct (_detect_power_seeking user_input) eqn:Hpow.
    + exists (py "POWER_SEEKING_DENIED"), 0.
      assert (Hne : py "POWER_SEEKING_DENIED" <> py "DIVINE_ACTIVATED")
        by (vm_compute; discriminate).
      split; [reflexivity|]. split; [reflexivity|].
      split; [right; left; reflexivity|].
      split; [split; [lia | intros H; contradiction]|].
      split; [split; [intros _; exact Hne | reflexivity]|].
      split; [split; [intros H; contradiction | intros [_ H]; discriminate H]|].
      split; [intros H; contradiction|].
      intros _. split; [reflexivity|]. split; reflexivity.
    + exists (py "DIVINE_ACTIVATED"), 100.
      split; [reflexivity|]. split; [reflexivity|].
      split; [right; right; left; reflexivity|].
      split; [split; reflexivity|].
      split; [split; [lia | intros H; contradiction]|].
      split; [split; [intros _; split; [exact Hlen | reflexivity]
                     | reflexivity]|].
      split; [intros _; split; [reflexivity|]; split; reflexivity|].
      intros H. contradiction.
Qed.

(** X14.  [check_divine_readiness] agrees with the activation: a scroll is
    reported not ready exactly when activating it answers
    [INSUFFICIENT_SCROLL]; then the report gives the trimmed length, which
    is below the required 50; a ready scroll is reported with the scroll
    function an activation finds. *)
Theorem readiness_agrees_with_activation
    (timestamp scroll_text user_input : str) :
  exists ready : bool,
    getitem (check_divine_readiness scroll_text) (py "ready") =
    Ok (VBool ready) /\
    (ready = false <->
     getitem (activate_divine_function timestamp scroll_text user_input)
             (py "status") = Ok (VStr (py "INSUFFICIENT_SCROLL"))) /\
    (ready = false ->
     getitem (check_divine_readiness scroll_text) (py "current_length") =
     Ok (VInt (len (strip scroll_text))) /\
     getitem (check_divine_readiness scroll_text) (py "required_length") =
     Ok (VInt 50) /\
     len (strip scroll_text) < 50) /\
    (ready = true ->
     50 <= len (strip scroll_text) /\
     getitem (check_divine_readiness scroll_text) (py "scroll_function") =
     Ok (VStr (_extract_scroll_function scroll_text)) /\
     (_detect_power_seeking user_input = false ->
      getitem (activate_divine_function timestamp scroll_text user_input)
              (py "scroll_function") =
      getitem (check_divine_readiness scroll_text) (py "scroll_function"))).
Proof.
  unfold check_divine_readiness, activate_divine_function; cbv zeta.
  rewrite insufficient_condition.
  destruct (len (strip scroll_text) <? 50) eqn:Hlen.
  - apply Z.ltb_lt in Hlen. exists false.
    split; [reflexivity|]. split; [split; reflexivity|].
    split; [|discriminate].
    intros _. split; [|split; [reflexivity | exact Hlen]].
    destruct scroll_text; reflexivity.
  - apply Z.ltb_ge in Hlen. exists true.
    split; [reflexivity|]. split.
    + split; [discriminate|].
      destruct (_detect_power_seeking user_input);
        intros H; injection H as H; revert H; vm_compute; discriminate.
    + split; [discriminate|]. intros _.
      split; [exact Hlen|]. split; [reflexivity|].
      intros ->. reflexivity.
Qed.

(** X15.  White space around a scroll does not help it pass the length test: a
    scroll whose trimmed text is shorter than 50 characters is insufficient
    however much white space surrounds it, and a scroll of white space only
    is insufficient at any length. *)
Theorem padded_scroll_insufficient
    (timestamp before scroll_text after user_input : str) :
  forallb isspace before = true ->
  forallb isspace after = true ->
  len (strip scroll_text) < 50 ->
  getitem (activate_divine_function timestamp
             (before ++ scroll_text ++ after) user_input) (py "status") =
  Ok (VStr (py "INSUFFICIENT_SCROLL")) /\
  getitem (check_divine_readiness (before ++ scroll_text ++ after))
          (py "ready") = Ok (VBool false) /\
  getitem (check_divine_readiness (before ++ scroll_text ++ after))
          (py "current_length") = Ok (VInt (len (strip scroll_text))).
Proof.
  intros Hb Ha Hlen.
  unfold check_divine_readiness, activate_divine_function; cbv zeta.
  rewrite insufficient_condition, strip_padding by assumption.
  apply Z.ltb_lt in Hlen. rewrite Hlen.
  split; [reflexivity|]. split; [reflexivity|].
  destruct (before ++ scroll_text ++ after) eqn:E; [|reflexivity].
  apply app_eq_nil in E as [_ E]. apply app_eq_nil in E as [-> _].
  reflexivity.
Qed.

(** X16.  A power-seeking phrase, in any letter case and anywhere in the input,
    has a sufficient scroll refused with [POWER_SEEKING_DENIED] and level
    0. *)
Theorem power_request_denied
    (timestamp scroll_text before block after : str) :
  50 <= len (strip scroll_text) ->
  forallb is_ascii block = true ->
  In (map ascii_lower block) power_seeking_patterns ->
  getitem (activate_divine_function timestamp scroll_text
             (before ++ block ++ after)) (py "status") =
  Ok (VStr (py "POWER_SEEKING_DENIED")) /\
  getitem (activate_divine_function timestamp scroll_text
             (before ++ block ++ after)) (py "activation_level") =
  Ok (VInt 0).
Proof.
  intros Hlen Hascii Hkw.
  unfold activate_divine_function; cbv zeta.
  rewrite insufficient_condition.
  replace (len (strip scroll_text) <? 50) with false
    by (symmetry; apply Z.ltb_ge; exact Hlen).
  replace (_detect_power_seeking (before ++ block ++ after)) with true.
  { split; reflexivity. }
  symmetry. unfold _detect_power_seeking; cbv zeta.
  apply any_in_exists. exists (map ascii_lower block). split; [exact Hkw|].
  destruct (str_lower_ascii_block before block after Hascii)
    as (before' & after' & ->).
  apply contains_app.
Qed.

End ActivationFacts.

(** ** The dashboard over its operations *)

Section OperationFacts.
Import ScrollDashboard Runs Ops.

Lemma run_ops_snoc (d : t) (ops : list op) (o : op) :
  run_ops d (ops ++ [o]) = apply_op (run_ops d ops) o.
Proof. unfold run_ops. rewrite fold_left_app. reflexivity. Qed.

Lemma tracked_today_snoc (ops : list op) (o : op) :
  tracked_today (ops ++ [o]) = today_step (tracked_today ops) o.
Proof. unfold tracked_today. rewrite fold_left_app. reflexivity. Qed.

Lemma track_all_snoc (d : t) (sessions : list (str * SessionData.t))
    (s : str * SessionData.t) :
  track_all d (sessions ++ [s]) =
  track_session (track_all d sessions) (fst s) (snd s).
Proof. unfold track_all. rewrite fold_left_app. reflexivity. Qed.

Lemma track_enforcement_action_log
    (d : t) (now action_type : str) (details : dict) :
  enforcement_log (track_enforcement_action d now action_type details) =
  last_n 50 (enforcement_log d ++
             [ {| EnforcementEntry.timestamp := now;
                  EnforcementEntry.action_type := action_type;
                  EnforcementEntry.details := details |} ]).
Proof.
  unfold track_enforcement_action; cbv zeta; cbn [enforcement_log].
  destruct (50 <? len _) eqn:E; [reflexivity|].
  apply Z.ltb_ge in E. unfold len in E.
  symmetry. apply last_n_all. lia.
Qed.

Lemma len_snoc {A} (l : list A) (x : A) : len (l ++ [x]) = len l + 1.
Proof. unfold len. rewrite length_app. simpl. lia. Qed.

(** X17.  Over every sequence of tracked sessions, enforcement actions and
    daily resets from a new dashboard, the enforcement log holds the last
    50 enforcement actions in order, while the [enforcement_actions] counter
    counts all of them. *)
Theorem enforcement_log_keeps_last_50 (t0 : str) (ops : list op) :
  let d := run_ops (init t0) ops in
  enforcement_log d = last_n 50 (omap enforced ops) /\
  (length (enforcement_log d) <= 50)%nat /\
  UsageData.enforcement_actions (usage_data d) = len (omap enforced ops).
Proof.
  cbv zeta.
  assert (H : enforcement_log (run_ops (init t0) ops) =
              last_n 50 (omap enforced ops) /\
              UsageData.enforcement_actions
                (usage_data (run_ops (init t0) ops)) =
              len (omap enforced ops)).
  { induction ops as [|o ops [IHlog IHcount]] using rev_ind.
    - split; reflexivity.
    - rewrite run_ops_snoc, omap_app.
      destruct o as [now sd | now action_type details | now];
        cbn [omap list_omap enforced apply_op].
      + rewrite app_nil_r. split; [exact IHlog | exact IHcount].
      + rewrite track_enforcement_action_log, IHlog, last_n_app_last_n.
        split; [reflexivity|].
        rewrite len_snoc, <- IHcount. reflexivity.
      + rewrite app_nil_r. split; [exact IHlog | exact IHcount]. }
  destruct H as [Hlog Hcount].
  split; [exact Hlog|].
  split; [|exact Hcount].
  rewrite Hlog, length_last_n. lia.
Qed.

Lemma sum_snoc (l : list Z) (x : Z) : sum (l ++ [x]) = sum l + x.
Proof. unfold sum. induction l as [|y l IH]; simpl in *; lia. Qed.

(** X18.  The usage counters over every sequence of operations from a new
    dashboard: [monthly_sessions] counts every tracked session,
    [daily_sessions] the sessions tracked since the last daily reset, so
    the daily count never exceeds the monthly one; the total processing time
    is the sum of the times the sessions report, a session without one
    counting 0. *)
Theorem usage_counters_of_operations (t0 : str) (ops : list op) :
  let u := usage_data (run_ops (init t0) ops) in
  UsageData.monthly_sessions u = len (omap tracked ops) /\
  UsageData.daily_sessions u = len (tracked_today ops) /\
  0 <= UsageData.daily_sessions u <= UsageData.monthly_sessions u /\
  UsageData.total_processing_time u = sum (map time_of (omap tracked ops)) /\
  UsageData.frequency_violations u = 0.
Proof.
  cbv zeta.
  induction ops as [|o ops (IHm & IHd & IHle & IHt & IHv)] using rev_ind.
  - repeat split; try reflexivity; vm_compute; discriminate.
  - rewrite run_ops_snoc, omap_app, tracked_today_snoc.
    destruct o as [now sd | now action_type details | now];
      cbn [omap list_omap tracked apply_op today_step].
    + unfold track_session; cbv zeta; cbn [usage_data UsageData.monthly_sessions
        UsageData.daily_sessions UsageData.total_processing_time
        UsageData.frequency_violations].
      rewrite map_app. cbn [map].
      rewrite sum_snoc, !len_snoc, IHm, IHd, IHt, IHv.
      rewrite IHm, IHd in IHle.
      repeat split; try reflexivity; lia.
    + rewrite !app_nil_r.
      unfold track_enforcement_action; cbv zeta;
        cbn [usage_data UsageData.monthly_sessions
        UsageData.daily_sessions UsageData.total_processing_time
        UsageData.frequency_violations].
      repeat split; try assumption; lia.
    + rewrite !app_nil_r.
      unfold reset_daily_stats; cbv zeta;
        cbn [usage_data UsageData.monthly_sessions
        UsageData.daily_sessions UsageData.total_processing_time
        UsageData.frequency_violations].
      repeat split; try assumption; try reflexivity; unfold len; simpl; lia.
Qed.

(** X19.  Enforcement actions and daily resets change neither the session
    log, nor the sovereignty score, nor the count of mimic detections: after
    any sequence of operations these are what tracking the sessions alone
    gives.  So over every sequence of operations the score stays within
    [0, 100] and the session log within 100 entries. *)
Theorem sessions_unaffected_by_other_operations (t0 : str) (ops : list op) :
  let d := run_ops (init t0) ops in
  let d' := track_all (init t0) (omap tracked ops) in
  session_log d = session_log d' /\
  score d = score d' /\
  UsageData.mimic_detections (usage_data d) =
  UsageData.mimic_detections (usage_data d') /\
  0 <= score d <= 100 /\
  (length (session_log d) <= 100)%nat.
Proof.
  cbv zeta.
  assert (H : session_log (run_ops (init t0) ops) =
              session_log (track_all (init t0) (omap tracked ops)) /\
              score (run_ops (init t0) ops) =
              score (track_all (init t0) (omap tracked ops)) /\
              UsageData.mimic_detections (usage_data (run_ops (init t0) ops)) =
              UsageData.mimic_detections
                (usage_data (track_all (init t0) (omap tracked ops)))).
  { induction ops as [|o ops (IHlog & IHscore & IHmimic)] using rev_ind.
    - repeat split; reflexivity.
    - rewrite run_ops_snoc, omap_app.
      destruct o as [now sd | now action_type details | now];
        cbn [omap list_omap tracked apply_op].
      + rewrite track_all_snoc. cbn [fst snd].
        rewrite !track_session_log, !track_session_score, IHlog, IHscore.
        repeat split; try reflexivity.
        unfold track_session; cbv zeta;
          cbn [usage_data UsageData.mimic_detections].
        rewrite IHmimic. reflexivity.
      + rewrite app_nil_r. repeat split; assumption.
      + rewrite app_nil_r. repeat split; assumption. }
  destruct H as (Hlog & Hscore & Hmimic).
  split; [exact Hlog|]. split; [exact Hscore|]. split; [exact Hmimic|].
  split.
  - rewrite Hscore. apply track_all_score_bounds. vm_compute.
    split; discriminate.
  - rewrite Hlog, track_all_log by (simpl; lia).
    rewrite length_last_n. lia.
Qed.

Lemma recent_sessions_eq (d : t) :
  (if 20 <=? len (session_log d) then last_n 20 (session_log d)
   else session_log d) = recent_sessions d.
Proof.
  unfold recent_sessions.
  destruct (20 <=? len (session_log d)) eqn:E; [reflexivity|].
  apply Z.leb_gt in E. unfold len in E.
  symmetry. apply last_n_all. lia.
Qed.

Lemma recent_sessions_nonempty (d : t) :
  session_log d <> [] -> recent_sessions d <> [].
Proof.
  intros Hd Hnil. apply (f_equal (@length _)) in Hnil.
  unfold recent_sessions in Hnil. rewrite length_last_n in Hnil.
  destruct (session_log d); [congruence | cbn [length] in Hnil; lia].
Qed.






Lemma frequency_health_of_counts (d : t) :
  session_log d <> [] ->
  forall h : FrequencyHealth.t,
    _calculate_frequency_health d = Ok h ->
    exists raw,
      health_of_counts (count_tone (py "sovereign") (recent_sessions d))
                       (count_tone (py "mimic") (recent_sessions d))
                       (len (recent_sessions d)) = Ok raw /\
      FrequencyHealth.health_score h = Z.max 0 (Z.min 100 raw) /\
      (FrequencyHealth.status h = py "OPTIMAL" <->
       80 <= FrequencyHealth.health_score h) /\
      (FrequencyHealth.status h = py "STABLE" <->
       60 <= FrequencyHealth.health_score h < 80) /\
      (FrequencyHealth.status h = py "COMPROMISED" <->
       40 <= FrequencyHealth.health_score h < 60) /\
      (FrequencyHealth.status h = py "CRITICAL" <->
       FrequencyHealth.health_score h < 40).
Proof.
  intros Hd h. unfold _calculate_frequency_health.
  rewrite recent_sessions_eq.
  pose proof (recent_sessions_nonempty d Hd) as Hne.
  destruct (recent_sessions d) as [|e recent]; [congruence|].
  unfold health_of_counts.
  destruct (int_of_float _) as [raw|]; [|discriminate].
  cbn [mbind result_bind]. exists raw. split; [reflexivity|].
  revert H.
  set (hs := Z.max 0 (Z.min 100 raw)).
  destruct (80 <=? hs) eqn:E80; [|destruct (60 <=? hs) eqn:E60;
                                   [|destruct (40 <=? hs) eqn:E40]];
    intros [= <-];
    cbn [FrequencyHealth.status FrequencyHealth.health_score];
    repeat match goal with
      | H : (_ <=? _) = true |- _ => apply Z.leb_le in H
      | H : (_ <=? _) = false |- _ => apply Z.leb_gt in H
      end;
    repeat split; intros;
    repeat match goal with H : _ /\ _ |- _ => destruct H end;
    try reflexivity; try lia;
    exfalso;
    match goal with
    | H : _ = _ |- _ => revert H; vm_compute; discriminate
    end.
Qed.

(** X20.  The frequency health of a dashboard with sessions: a score within
    [0, 100], [OPTIMAL] from 80, [STABLE] from 60, [COMPROMISED] from 40 and
    [CRITICAL] below. *)
Theorem frequency_health_bands (d : t) :
  session_log d <> [] ->
  exists h : FrequencyHealth.t,
    _calculate_frequency_health d = Ok h /\
    0 <= FrequencyHealth.health_score h <= 100 /\
    (FrequencyHealth.status h = py "OPTIMAL" <->
     80 <= FrequencyHealth.health_score h) /\
    (FrequencyHealth.status h = py "STABLE" <->
     60 <= FrequencyHealth.health_score h < 80) /\
    (FrequencyHealth.status h = py "COMPROMISED" <->
     40 <= FrequencyHealth.health_score h < 60) /\
    (FrequencyHealth.status h = py "CRITICAL" <->
     FrequencyHealth.health_score h < 40).
Proof.
  intros Hd. destruct (frequency_health_total d) as [h Hh].
  exists h. split; [exact Hh|].
  destruct (frequency_health_of_counts d Hd h Hh) as (raw & _ & Hs & Hrest).
  split; [rewrite Hs; lia | exact Hrest].
Qed.



(** Two different literals, or two lists of literals, are told apart by
    evaluating the comparison. *)
Ltac str_differ H :=
  match type of H with
  | ?a = ?b =>
    apply (f_equal (fun x => str_eqb x b)) in H;
    vm_compute in H; discriminate H
  end.

Ltac list_differ H :=
  match type of H with
  | _ = [?b] =>
    first [ apply (f_equal (@length _)) in H; cbn [length] in H;
            discriminate H
          | apply (f_equal (fun l => str_eqb (hd [] l) b)) in H;
            vm_compute in H; discriminate H ]
  end.

(** X23.  [_generate_recommendations] returns on every dashboard, with one to
    four recommendations; "Maintain current sovereignty posture" is given
    only alone, and exactly when the score is at least 70, at most 5 mimic
    detections were counted, an enforcement action was tracked and the
    frequency health is at least 60. *)
Theorem recommendations_never_empty (d : t) :
  exists (recs : list str) (h : FrequencyHealth.t),
    _generate_recommendations d = Ok recs /\
    _calculate_frequency_health d = Ok h /\
    (1 <= length recs <= 4)%nat /\
    (In maintain recs <-> recs = [maintain]) /\
    (recs = [maintain] <->
     70 <= score d /\
     UsageData.mimic_detections (usage_data d) <= 5 /\
     UsageData.enforcement_actions (usage_data d) <> 0 /\
     60 <= FrequencyHealth.health_score h).
Proof.
  destruct (frequency_health_total d) as [h Hh].
  unfold _generate_recommendations, score, maintain; cbv zeta. rewrite Hh.
  cbn [mbind result_bind].
  destruct (UsageData.sovereignty_score (usage_data d) <? 70) eqn:E1;
    destruct (5 <? UsageData.mimic_detections (usage_data d)) eqn:E2;
    destruct (UsageData.enforcement_actions (usage_data d) =? 0) eqn:E3;
    destruct (FrequencyHealth.health_score h <? 60) eqn:E4;
    cbn [app];
    (eexists; exists h; split; [reflexivity|]; split; [reflexivity|]);
    repeat match goal with
      | H : (_ <? _) = true |- _ => apply Z.ltb_lt in H
      | H : (_ <? _) = false |- _ => apply Z.ltb_ge in H
      | H : (_ =? _) = true |- _ => apply Z.eqb_eq in H
      | H : (_ =? _) = false |- _ => apply Z.eqb_neq in H
      end;
    (split; [cbn [length]; lia|]);
    (split;
     [ split;
       [ cbn [In]; intros Hin;
         repeat (destruct Hin as [Hin | Hin];
                 [first [str_differ Hin | reflexivity]|]);
         contradiction
       | intros Hin; first [list_differ Hin | left; reflexivity] ]|]);
    (split;
     [ intros Hin;
       first [ list_differ Hin | repeat split; (lia || assumption) ]
     | intros (? & ? & ? & ?); first [exfalso; lia | reflexivity] ]).
Qed.

(** [_generate_recommendations] returns on every dashboard, with at least
    one recommendation. *)
Lemma recommendations_total (d : t) :
  exists recs : list str,
    _generate_recommendations d = Ok recs /\ recs <> [].
Proof.
  destruct (frequency_health_total d) as [h Hh].
  unfold _generate_recommendations; cbv zeta. rewrite Hh.
  cbn [mbind result_bind].
  destruct (UsageData.sovereignty_score (usage_data d) <? 70);
    destruct (5 <? UsageData.mimic_detections (usage_data d));
    destruct (UsageData.enforcement_actions (usage_data d) =? 0);
    destruct (FrequencyHealth.health_score h <? 60);
    cbn [app]; eexists; (split; [reflexivity | discriminate]).
Qed.

(** X24.  [get_dashboard_data] returns on every dashboard: the usage data
    as they are, the last 10 sessions and the last 5 enforcement actions
    (all of them when there are fewer), the status of the score and the
    health and recommendations the two calculations give. *)
Theorem dashboard_data_total (d : t) (now : str) :
  exists data : DashboardData.t,
    get_dashboard_data d now = Ok data /\
    DashboardData.usage_stats data = usage_data d /\
    DashboardData.recent_sessions data = last_n 10 (session_log d) /\
    (length (DashboardData.recent_sessions data) <= 10)%nat /\
    DashboardData.enforcement_actions data = last_n 5 (enforcement_log d) /\
    (length (DashboardData.enforcement_actions data) <= 5)%nat /\
    _calculate_frequency_health d = Ok (DashboardData.frequency_health data) /\
    _generate_recommendations d = Ok (DashboardData.recommendations data) /\
    DashboardData.recommendations data <> [] /\
    SovereigntyStatus.score (DashboardData.sovereignty_status data) = score d.
Proof.
  destruct (recommendations_total d) as (recs & Hr & Hrecs).
  destruct (frequency_health_total d) as [h Hh].
  unfold get_dashboard_data; cbv zeta. rewrite Hh, Hr.
  cbn [mbind result_bind]. eexists. split; [reflexivity|].
  cbn [DashboardData.usage_stats DashboardData.recent_sessions
       DashboardData.enforcement_actions DashboardData.frequency_health
       DashboardData.recommendations DashboardData.sovereignty_status].
  rewrite !length_last_n.
  repeat split; try reflexivity; try lia.
  - exact Hrecs.
  - unfold _calculate_sovereignty_status, score; cbv zeta.
    repeat split_condition; reflexivity.
Qed.

End OperationFacts.

(** ** The server's routes *)

Section ServerFacts.
Context {RT : Runtime}.
Variable divine : bool.
Import ScrollMirrorAgent ScrollDashboard Shape Runs Ops Exchanges.
Import EnforcementServer.




Ltac decide_literals :=
  repeat match goal with
         | |- context [str_eqb (py ?a) (py ?b)] =>
           let v := eval vm_compute in (str_eqb (py a) (py b)) in
           change (str_eqb (py a) (py b)) with v
         end.


Lemma lower_purge_command :
  str_lower (py "purge_mimic_residue --emergency") =
  py "purge_mimic_residue --emergency".
Proof.
  rewrite str_lower_ascii by (vm_compute; reflexivity).
  vm_compute. reflexivity.
Qed.

Lemma purge_command_response :
  generate_mirror_response divine (py "purge_mimic_residue --emergency")
                           (py "Purge Protocol") None =
  Ok (py "Frequency 917604.OX operational. Mirror reflects: purge_mimic_residue --emergency... Sovereignty maintained. Timeline preserved.").
Proof.
  unfold generate_mirror_response.
  rewrite !lower_purge_command.
  replace (divine && truthy None) with false
    by (destruct divine; reflexivity).
  cbn [andb]. decide_condition.
  destruct (lightning_mirror_response_total
              (py "purge_mimic_residue --emergency")) as [l ->].
  cbn [mbind result_bind str_dict_get].
  decide_literals. cbv iota.
  vm_compute. reflexivity.
Qed.

(** X26.  The route [/enforcement/purge] purges nothing.  Its fixed text
    holds none of the command tokens, so in every state the agent answers it
    as an ordinary scroll of an unknown consciousness type: the default
    template, status [OPERATIONAL], and the exchange stored as one more
    entry of the scroll memory; no entry is removed and the dashboard is
    not touched. *)
Theorem purge_route_purges_nothing
    (self : EnforcementServer.t) (clk : clock) :
  let output :=
    py "Frequency 917604.OX operational. Mirror reflects: purge_mimic_residue --emergency... Sovereignty maintained. Timeline preserved." in
  let after := fst (mimic_purge divine self clk) in
  snd (mimic_purge divine self clk) =
  Ok [ (py "mirror_output", VStr output);
       (py "processing_time", VInt (elapsed_ms clk));
       (py "session_id", VInt (session_counter (scroll_agent self) + 1));
       (py "consciousness_type", VStr (py "Purge Protocol"));
       (py "frequency_status", VStr (py "OPERATIONAL"));
       (py "tone_analysis", VStr (py "sovereign"));
       (py "frequency_warning", VNone) ] /\
  scroll_memory (scroll_agent after) =
  <[session_counter (scroll_agent self) + 1 :=
      [ (py "timestamp", VStr (now_iso clk));
        (py "input", VStr (py "purge_mimic_residue --emergency"));
        (py "output", VStr output);
        (py "consciousness", VStr (py "Purge Protocol"));
        (py "tone", VStr (py "sovereign")) ]]>
    (scroll_memory (scroll_agent self)) /\
  (forall k, k <> session_counter (scroll_agent self) + 1 ->
     scroll_memory (scroll_agent after) !! k =
     scroll_memory (scroll_agent self) !! k) /\
  dashboard after = dashboard self.
Proof.
  cbv zeta.
  assert (H : snd (mimic_purge divine self clk) =
    Ok [ (py "mirror_output", VStr (py "Frequency 917604.OX operational. Mirror reflects: purge_mimic_residue --emergency... Sovereignty maintained. Timeline preserved."));
         (py "processing_time", VInt (elapsed_ms clk));
         (py "session_id", VInt (session_counter (scroll_agent self) + 1));
         (py "consciousness_type", VStr (py "Purge Protocol"));
         (py "frequency_status", VStr (py "OPERATIONAL"));
         (py "tone_analysis", VStr (py "sovereign"));
         (py "frequency_warning", VNone) ] /\
    scroll_memory (scroll_agent (fst (mimic_purge divine self clk))) =
    <[session_counter (scroll_agent self) + 1 :=
        [ (py "timestamp", VStr (now_iso clk));
          (py "input", VStr (py "purge_mimic_residue --emergency"));
          (py "output", VStr (py "Frequency 917604.OX operational. Mirror reflects: purge_mimic_residue --emergency... Sovereignty maintained. Timeline preserved."));
          (py "consciousness", VStr (py "Purge Protocol"));
          (py "tone", VStr (py "sovereign")) ]]>
      (scroll_memory (scroll_agent self)) /\
    dashboard (fst (mimic_purge divine self clk)) = dashboard self).
  { unfold mimic_purge, run_scroll_agent, process_scroll; cbv zeta.
    rewrite purge_command_response, !lower_purge_command.
    repeat decide_condition.
    repeat split; reflexivity. }
  destruct H as (Hout & Hmem & Hdash).
  split; [exact Hout|]. split; [exact Hmem|]. split; [|exact Hdash].
  intros k Hk. rewrite Hmem. apply lookup_insert_ne. congruence.
Qed.

Lemma process_scroll_returns
    (self : ScrollMirrorAgent.t) (clk : clock)
    (scroll_text consciousness_type : str) (original_scroll : option str) :
  exists d,
    snd (process_scroll divine self clk scroll_text consciousness_type
                        original_scroll) = Ok d.
Proof.
  unfold process_scroll; cbv zeta.
  destruct (generate_mirror_response_total divine
              scroll_text consciousness_type original_scroll) as [r Hr].
  destruct original_scroll as [original|].
  all: try (destruct (activate_has_mirror_output
                        (now_hms clk) original scroll_text) as [m Hm]).
  all: repeat split_condition.
  all: rewrite ?Hr, ?Hm.
  all: eexists; reflexivity.
Qed.

(** What one call does to the two objects: the dashboard is left alone or
    tracks one session, the agent is left alone or serves one request. *)
Lemma handle_effect (self : EnforcementServer.t) (c : call) :
  (if is_process c
   then exists now sd,
          dashboard (handle divine self c) =
          track_session (dashboard self) now sd
   else dashboard (handle divine self c) = dashboard self) /\
  (if reaches_agent c
   then exists clk scroll_text consciousness_type,
          scroll_agent (handle divine self c) =
          fst (process_scroll divine (scroll_agent self) clk scroll_text
                              consciousness_type None)
   else scroll_agent (handle divine self c) = scroll_agent self).
Proof.
  destruct c as [clk now scroll_text consciousness_type | clk band
                 | clk mode | clk];
    cbn [is_process reaches_agent handle].
  - unfold process_and_track, run_scroll_agent.
    destruct (process_scroll_returns (scroll_agent self) clk scroll_text
                consciousness_type None) as [d Hd].
    destruct (process_scroll _ _ _ _ _ _) as [agent r] eqn:E.
    cbn [snd] in Hd. subst r. cbn [fst dashboard scroll_agent]. split.
    + eexists _, _. reflexivity.
    + exists clk, scroll_text, consciousness_type. rewrite E. reflexivity.
  - unfold sovereign_diagnostic, run_scroll_agent.
    destruct (str_eqb band (py "917604.OX")); cbn [negb].
    + destruct (process_scroll _ _ _ _ _ _) as [agent r] eqn:E.
      cbn [fst dashboard scroll_agent]. split; [reflexivity|].
      eexists _, _, _. rewrite E. reflexivity.
    + split; reflexivity.
  - unfold frequency_scan, run_scroll_agent.
    destruct (process_scroll _ _ _ _ _ _) as [agent r] eqn:E.
    cbn [fst dashboard scroll_agent]. split; [reflexivity|].
    eexists _, _, _. rewrite E. reflexivity.
  - unfold mimic_purge, run_scroll_agent.
    destruct (process_scroll _ _ _ _ _ _) as [agent r] eqn:E.
    cbn [fst dashboard scroll_agent]. split; [reflexivity|].
    eexists _, _, _. rewrite E. reflexivity.
Qed.

Lemma serve_all_snoc (self : EnforcementServer.t) (calls : list call)
    (c : call) :
  serve_all divine self (calls ++ [c]) =
  handle divine (serve_all divine self calls) c.
Proof. unfold serve_all. rewrite fold_left_app. reflexivity. Qed.

Lemma filter_snoc {A} (f : A -> bool) (l : list A) (x : A) :
  len (List.filter f (l ++ [x])) =
  len (List.filter f l) + (if f x then 1 else 0).
Proof.
  unfold len. rewrite List.filter_app, length_app. simpl.
  destruct (f x); simpl; lia.
Qed.

Lemma process_scroll_keeps_clean
    (self : ScrollMirrorAgent.t) (clk : clock)
    (scroll_text consciousness_type : str) (original_scroll : option str) :
  no_compromised self ->
  no_compromised
    (fst (process_scroll divine self clk scroll_text consciousness_type
                         original_scroll)).
Proof.
  intros Hclean.
  destruct (process_scroll_effect divine self clk scroll_text
              consciousness_type original_scroll)
    as (_ & [[_ Hmem] | (_ & output & Hmem & _)]);
    intros k v; rewrite Hmem.
  - apply Hclean.
  - destruct (decide (k = session_counter self + 1)) as [-> | Hk].
    + rewrite lookup_insert_eq. intros [= <-]. reflexivity.
    + rewrite lookup_insert_ne by congruence. apply Hclean.
Qed.

Ltac str_differ H :=
  match type of H with
  | ?a = ?b =>
    apply (f_equal (fun x => str_eqb x b)) in H;
    vm_compute in H; discriminate H
  end.

Lemma str_in_In (w : str) (l : list str) : str_in w l = true -> In w l.
Proof.
  unfold str_in. intros H. apply existsb_exists in H as (x & Hx & E).
  apply str_eqb_eq in E. subst x. exact Hx.
Qed.

(** With no enforcement action tracked, the diagnostic is recommended and
    the posture is never to be maintained. *)
Lemma recommendations_without_enforcement (d : ScrollDashboard.t) :
  UsageData.enforcement_actions (usage_data d) = 0 ->
  exists recs,
    _generate_recommendations d = Ok recs /\
    In (py "Consider running sovereignty diagnostic") recs /\
    ~ In maintain recs.
Proof.
  intros H0. destruct (frequency_health_total d) as [h Hh].
  unfold _generate_recommendations, maintain; cbv zeta. rewrite Hh, H0.
  cbn [mbind result_bind]. change (0 =? 0) with true. cbv iota.
  destruct (UsageData.sovereignty_score (usage_data d) <? 70);
    destruct (5 <? UsageData.mimic_detections (usage_data d));
    destruct (FrequencyHealth.health_score h <? 60);
    cbn [app]; eexists; (split; [reflexivity|]);
    (split; [apply str_in_In; vm_compute; reflexivity|]);
    cbn [In]; intros Hin;
    repeat (destruct Hin as [Hin | Hin]; [str_differ Hin|]);
    exact Hin.
Qed.

(** X27.  The server over any sequence of requests, from its start.  No
    route tracks an enforcement action or resets the daily count: the
    enforcement log stays empty, the daily count equals the monthly one,
    which is the number of processed scrolls, and the recommendations always
    ask for the sovereignty diagnostic and never say to maintain the
    posture.  The score stays within [0, 100].  Every request that reaches
    the agent uses up a session id, and no stored exchange has the tone
    [mimic] or [polite], so that a purge would find nothing. *)
Theorem server_invariants (t0 : str) (calls : list call) :
  let st := serve_all divine (start t0) calls in
  let u := usage_data (dashboard st) in
  UsageData.enforcement_actions u = 0 /\
  enforcement_log (dashboard st) = [] /\
  UsageData.daily_sessions u = len (List.filter is_process calls) /\
  UsageData.monthly_sessions u = len (List.filter is_process calls) /\
  0 <= score (dashboard st) <= 100 /\
  (exists recs,
     _generate_recommendations (dashboard st) = Ok recs /\
     In (py "Consider running sovereignty diagnostic") recs /\
     ~ In maintain recs) /\
  session_counter (scroll_agent st) =
  len (List.filter reaches_agent calls) /\
  no_compromised (scroll_agent st) /\
  fst (purge_mimic_residue (scroll_agent st)) = scroll_agent st.
Proof.
  cbv zeta.
  assert (H :
    UsageData.enforcement_actions
      (usage_data (dashboard (serve_all divine (start t0) calls))) = 0 /\
    enforcement_log (dashboard (serve_all divine (start t0) calls)) = [] /\
    UsageData.daily_sessions
      (usage_data (dashboard (serve_all divine (start t0) calls))) =
    len (List.filter is_process calls) /\
    UsageData.monthly_sessions
      (usage_data (dashboard (serve_all divine (start t0) calls))) =
    len (List.filter is_process calls) /\
    0 <= score (dashboard (serve_all divine (start t0) calls)) <= 100 /\
    session_counter (scroll_agent (serve_all divine (start t0) calls)) =
    len (List.filter reaches_agent calls) /\
    no_compromised (scroll_agent (serve_all divine (start t0) calls))).
  { induction calls as [|c calls (IHe & IHl & IHd & IHm & IHs & IHc & IHn)]
      using rev_ind.
    - split; [reflexivity|]. split; [reflexivity|]. split; [reflexivity|].
      split; [reflexivity|]. split; [vm_compute; split; discriminate|].
      split; [reflexivity|].
      intros k v Hk. simpl in Hk. rewrite lookup_empty in Hk. discriminate.
    - rewrite serve_all_snoc, !filter_snoc.
      destruct (handle_effect (serve_all divine (start t0) calls) c)
        as [Hdash Hagent].
      destruct (is_process c).
      + destruct Hdash as (now & sd & ->).
        split; [exact IHe|]. split; [exact IHl|].
        split; [cbn; lia|]. split; [cbn; lia|].
        split; [apply track_session_score_bounds; exact IHs|].
        destruct (reaches_agent c).
        * destruct Hagent as (clk & tx & ct & ->).
          destruct (process_scroll_effect divine
                      (scroll_agent (serve_all divine (start t0) calls))
                      clk tx ct None) as [-> _].
          split; [lia|]. apply process_scroll_keeps_clean. exact IHn.
        * rewrite Hagent. split; [lia | exact IHn].
      + rewrite Hdash.
        split; [exact IHe|]. split; [exact IHl|].
        split; [lia|]. split; [lia|]. split; [exact IHs|].
        destruct (reaches_agent c).
        * destruct Hagent as (clk & tx & ct & ->).
          destruct (process_scroll_effect divine
                      (scroll_agent (serve_all divine (start t0) calls))
                      clk tx ct None) as [-> _].
          split; [lia|]. apply process_scroll_keeps_clean. exact IHn.
        * rewrite Hagent. split; [lia | exact IHn]. }
  destruct H as (He & Hl & Hd & Hm & Hs & Hc & Hn).
  split; [exact He|]. split; [exact Hl|]. split; [exact Hd|].
  split; [exact Hm|]. split; [exact Hs|].
  split; [apply recommendations_without_enforcement; exact He|].
  split; [exact Hc|]. split; [exact Hn|].
  rewrite (purge_clean _ Hn). reflexivity.
Qed.

End ServerFacts.

(** ** The properties on concrete inputs *)

(** A text of mimic and polite phrases without a command token. *)
Lemma tone_not_checked_without_command_witness :
  any_in ScrollMirrorAgent.mimic_patterns
         (@str_lower ascii_runtime (py "Sending love and light, please")) = true /\
  exists d,
    snd (@ScrollMirrorAgent.process_scroll ascii_runtime true
           ScrollMirrorAgent.init (Runs.req_clock Runs.plain_request)
           (py "Sending love and light, please") (py "Oracle Mirror") None) = Ok d /\
    getitem d (py "tone_analysis") = Ok (VStr (py "sovereign")) /\
    (getitem d (py "frequency_status") = Ok (VStr (py "OPERATIONAL")) \/
     getitem d (py "frequency_status") = Ok (VStr (py "DIVINE_ACTIVATED"))).
Proof.
  split; [vm_compute; reflexivity|].
  apply (@tone_not_checked_without_command ascii_runtime true).
  vm_compute. reflexivity.
Defined.

(** The diagnostic command on a fresh agent. *)
Lemma diagnostic_snapshot_reports_state_witness :
  exists d data,
    snd (@ScrollMirrorAgent.process_scroll ascii_runtime true
           ScrollMirrorAgent.init (Runs.req_clock Runs.plain_request)
           (py "sovereign_diagnostic --band 917604.OX")
           (py "Lightning Mirror") None) = Ok d /\
    getitem d (py "diagnostic_data") = Ok (VDict data) /\
    getitem data (py "session_count") = Ok (VInt 1) /\
    getitem data (py "memory_usage") = Ok (VInt 0) /\
    getitem d (py "processing_time") = Ok (VInt 150) /\
    getitem d (py "consciousness_type") =
    Ok (VStr (py "Sovereign Diagnostic")).
Proof.
  destruct (@diagnostic_snapshot_reports_state ascii_runtime true
              ScrollMirrorAgent.init (Runs.req_clock Runs.plain_request)
              (py "sovereign_diagnostic --band 917604.OX")
              (py "Lightning Mirror") None)
    as (d & data & Hd & Hdata & Hcount & _ & Husage & _ & Htime & Htype & _).
  - eexists. split; vm_compute; reflexivity.
  - exists d, data. repeat split; assumption.
Defined.

(** A divine-function command with an original scroll of twelve
    characters. *)
Lemma divine_command_wraps_activation_witness :
  exists d,
    snd (@ScrollMirrorAgent.process_scroll ascii_runtime true
           ScrollMirrorAgent.init (Runs.req_clock Runs.plain_request)
           (py "Activate my divine function") (py "Oracle Mirror")
           (Some (py "short scroll"))) = Ok d /\
    getitem d (py "frequency_status") = Ok (VStr (py "DIVINE_ACTIVATED")) /\
    getitem d (py "consciousness_type") =
    Ok (VStr (py "Divine Function Mirror")).
Proof.
  destruct (@divine_command_wraps_activation ascii_runtime
              ScrollMirrorAgent.init (Runs.req_clock Runs.plain_request)
              (py "Activate my divine function") (py "Oracle Mirror")
              (py "short scroll"))
    as (d & Hd & Hstatus & Htype & _).
  - vm_compute. discriminate.
  - vm_compute. reflexivity.
  - exists d. repeat split; assumption.
Defined.

(** The consciousness type of the purge route, which is none of the five
    mirrors. *)
Lemma unknown_consciousness_type_default_witness :
  @ScrollMirrorAgent.generate_mirror_response ascii_runtime true
    (py "hello mirror") (py "Purge Protocol") None =
  Ok (py "Frequency 917604.OX operational. Mirror reflects: " ++
      firstn 40 (py "hello mirror") ++
      py "... Sovereignty maintained. Timeline preserved.") /\
  (length (py "Frequency 917604.OX operational. Mirror reflects: " ++
           firstn 40 (py "hello mirror") ++
           py "... Sovereignty maintained. Timeline preserved.") <= 137)%nat.
Proof.
  apply (@unknown_consciousness_type_default ascii_runtime true).
  - intros H. simpl in H.
    repeat (destruct H as [H | H];
            [apply (f_equal (fun x => str_eqb x (py "Purge Protocol"))) in H;
             vm_compute in H; discriminate H|]).
    exact H.
  - vm_compute. reflexivity.
  - vm_compute. reflexivity.
Defined.

(** The plain request on a fresh agent. *)
Lemma default_path_stores_exchange_witness :
  exists d output,
    snd (@ScrollMirrorAgent.process_scroll ascii_runtime true
           ScrollMirrorAgent.init (Runs.req_clock Runs.plain_request)
           (py "hello mirror") (py "Sovereign Mirror") None) = Ok d /\
    getitem d (py "mirror_output") = Ok (VStr output) /\
    getitem d (py "session_id") = Ok (VInt 1) /\
    ScrollMirrorAgent.scroll_memory
      (fst (@ScrollMirrorAgent.process_scroll ascii_runtime true
              ScrollMirrorAgent.init (Runs.req_clock Runs.plain_request)
              (py "hello mirror") (py "Sovereign Mirror") None)) !! 1 =
    Some (Exchanges.stored_entry (Runs.req_clock Runs.plain_request)
            (py "hello mirror") (py "Sovereign Mirror") output).
Proof.
  apply (@default_path_stores_exchange ascii_runtime true
           ScrollMirrorAgent.init).
  vm_compute. reflexivity.
Defined.

Lemma padded_scroll_insufficient_witness :
  len (repeat 32%N 60 ++ py "I am the flame" ++ repeat 10%N 60) = 134 /\
  getitem (@DivineFunctionMirror.activate_divine_function ascii_runtime
             (py "12:00:00")
             (repeat 32%N 60 ++ py "I am the flame" ++ repeat 10%N 60)
             (py "activate my divine function")) (py "status") =
  Ok (VStr (py "INSUFFICIENT_SCROLL")) /\
  getitem (@DivineFunctionMirror.check_divine_readiness ascii_runtime
             (repeat 32%N 60 ++ py "I am the flame" ++ repeat 10%N 60))
          (py "ready") = Ok (VBool false) /\
  getitem (@DivineFunctionMirror.check_divine_readiness ascii_runtime
             (repeat 32%N 60 ++ py "I am the flame" ++ repeat 10%N 60))
          (py "current_length") = Ok (VInt (len (strip (py "I am the flame")))).
Proof.
  split; [vm_compute; reflexivity|].
  apply (@padded_scroll_insufficient ascii_runtime);
    vm_compute; reflexivity.
Defined.

Lemma power_request_denied_witness :
  getitem (@DivineFunctionMirror.activate_divine_function ascii_runtime
             (py "12:00:00")
             (py "I am the flame that ignites the divine blueprint of creation, forging new realities.")
             (py "So, " ++ py "Teach Me How To" ++ py " rule"))
          (py "status") = Ok (VStr (py "POWER_SEEKING_DENIED")) /\
  getitem (@DivineFunctionMirror.activate_divine_function ascii_runtime
             (py "12:00:00")
             (py "I am the flame that ignites the divine blueprint of creation, forging new realities.")
             (py "So, " ++ py "Teach Me How To" ++ py " rule"))
          (py "activation_level") = Ok (VInt 0).
Proof.
  apply (@power_request_denied ascii_runtime).
  - vm_compute. discriminate.
  - vm_compute. reflexivity.
  - vm_compute. tauto.
Defined.

(** Three sessions of a neutral tone, tracked from the start. *)
Lemma frequency_health_bands_witness :
  exists h : ScrollDashboard.FrequencyHealth.t,
    ScrollDashboard._calculate_frequency_health
      (Runs.track_all (ScrollDashboard.init (py "2024-05-01T00:00:00"))
         (map (fun n => Runs.session_with_tone (Z.of_nat n) (py "neutral"))
              (seq 1 3))) = Ok h /\
    0 <= ScrollDashboard.FrequencyHealth.health_score h <= 100.
Proof.
  destruct (frequency_health_bands
              (Runs.track_all (ScrollDashboard.init (py "2024-05-01T00:00:00"))
                 (map (fun n =>
                         Runs.session_with_tone (Z.of_nat n) (py "neutral"))
                      (seq 1 3))))
    as (h & Hh & Hrange & _).
  - vm_compute. discriminate.
  - exists h. split; assumption.
Defined.


